(** * PostNL AI API: the request handler and the explanation generator

    A shallow embedding of [postnl_ai_api.py].  Python values that come out of
    a JSON parser are an inductive type, a [dict] is an association list in
    insertion order, an exception is a value of [exn], and code that can raise
    lives in the error monad [res].  The handler's one effect, the call to the
    external model, is logged: a handler run yields the response together
    with the list of prompts it sent. *)

From Stdlib Require Import String Ascii List ZArith Bool Lia.
From Stdlib Require Import SpecFloat DecimalString.
Import ListNotations.
Open Scope string_scope.
Set Warnings "-register-all".

(** ** Python values and exceptions *)

(** What [json.loads] and [request.json] produce.  A dict keeps its entries
    in insertion order and its keys are strings. *)
Inductive value : Type :=
| VNone
| VBool (b : bool)
| VInt (z : Z)
| VFloat (f : spec_float)
| VStr (s : string)
| VList (l : list value)
| VDict (d : list (string * value)).

Definition dict : Type := list (string * value).

(** The exception classes the handler tells apart, each with what [str(e)]
    needs.  [OtherException] stands for every class that is none of the
    first four (provider, network, HTTP errors).  The messages of the
    errors that the interpreter itself raises follow CPython 3.11; no
    statement below depends on their wording. *)
Inductive exn : Type :=
| JSONDecodeError (msg : string)
| KeyError (key : string)
| TypeError (msg : string)
| AttributeError (msg : string)
| OtherException (msg : string).

Inductive res (A : Type) : Type :=
| Ok (a : A)
| Raise (e : exn).
Arguments Ok {A} a.
Arguments Raise {A} e.

Definition bind {A B : Type} (c : res A) (k : A -> res B) : res B :=
  match c with
  | Ok a => k a
  | Raise e => Raise e
  end.

Notation "x <- c ;; k" := (bind c (fun x => k))
  (at level 61, c at next level, right associativity).

(** The parts of the interpreter that are left open: the text of a float and
    the quoted form of a string inside a printed list or dict. *)
Class Interp : Type := {
  float_repr : spec_float -> string;
  str_repr : string -> string
}.

Definition dq : string := String (ascii_of_nat 34) EmptyString.
Definition nl : string := String (ascii_of_nat 10) EmptyString.

Fixpoint lookup {A : Type} (k : string) (d : list (string * A)) : option A :=
  match d with
  | [] => None
  | (k', v) :: d' => if String.eqb k k' then Some v else lookup k d'
  end.

Definition has_key {A : Type} (k : string) (d : list (string * A)) : bool :=
  match lookup k d with
  | Some _ => true
  | None => false
  end.

(** [sub in s] on two strings. *)
Fixpoint is_infix (sub s : string) : bool :=
  if prefix sub s then true
  else match s with
       | EmptyString => false
       | String _ s' => is_infix sub s'
       end.

(** The characters of a string, one string each.  Strings are sequences of
    8-bit characters here. *)
Definition chars (s : string) : list string :=
  map (fun c => String c EmptyString) (list_ascii_of_string s).

Definition type_name (v : value) : string :=
  match v with
  | VNone => "NoneType"
  | VBool _ => "bool"
  | VInt _ => "int"
  | VFloat _ => "float"
  | VStr _ => "str"
  | VList _ => "list"
  | VDict _ => "dict"
  end.

Definition is_dict (v : value) : bool :=
  match v with
  | VDict _ => true
  | _ => false
  end.

Definition is_str (v : value) : bool :=
  match v with
  | VStr _ => true
  | _ => false
  end.

(** [bool(v)]. *)
Definition py_truthy (v : value) : bool :=
  match v with
  | VNone => false
  | VBool b => b
  | VInt z => negb (Z.eqb z 0)
  | VFloat (S754_zero _) => false
  | VFloat _ => true
  | VStr s => negb (String.eqb s EmptyString)
  | VList [] => false
  | VList _ => true
  | VDict [] => false
  | VDict _ => true
  end.

(** [v == s] for a string literal [s]. *)
Definition py_eq_str (v : value) (s : string) : bool :=
  match v with
  | VStr s' => String.eqb s' s
  | _ => false
  end.

(** [k in container] for a string [k]. *)
Definition py_contains (k : string) (container : value) : res bool :=
  match container with
  | VDict d => Ok (has_key k d)
  | VList l => Ok (existsb (fun v => py_eq_str v k) l)
  | VStr s => Ok (is_infix k s)
  | _ => Raise (TypeError ("argument of type '" ++ type_name container ++ "' is not iterable"))
  end.

(** [container[k]] for a string [k]. *)
Definition py_getitem (container : value) (k : string) : res value :=
  match container with
  | VDict d =>
      match lookup k d with
      | Some v => Ok v
      | None => Raise (KeyError k)
      end
  | VList _ => Raise (TypeError "list indices must be integers or slices, not str")
  | VStr _ => Raise (TypeError "string indices must be integers, not 'str'")
  | _ => Raise (TypeError ("'" ++ type_name container ++ "' object is not subscriptable"))
  end.

Definition no_attribute {A : Type} (obj : value) (attr : string) : res A :=
  Raise (AttributeError ("'" ++ type_name obj ++ "' object has no attribute '" ++ attr ++ "'")).

(** [obj.get(k, default)]. *)
Definition py_get (obj : value) (k : string) (default : value) : res value :=
  match obj with
  | VDict d =>
      match lookup k d with
      | Some v => Ok v
      | None => Ok default
      end
  | _ => no_attribute obj "get"
  end.

(** [obj.items()]. *)
Definition py_items (obj : value) : res dict :=
  match obj with
  | VDict d => Ok d
  | _ => no_attribute obj "items"
  end.

(** What [for x in obj] runs over. *)
Definition py_iter (obj : value) : res (list value) :=
  match obj with
  | VList l => Ok l
  | VDict d => Ok (map (fun kv => VStr (fst kv)) d)
  | VStr s => Ok (map VStr (chars s))
  | _ => Raise (TypeError ("'" ++ type_name obj ++ "' object is not iterable"))
  end.

(** The items of a sequence handed to [str.join], from position [i] on. *)
Fixpoint join_items (i : nat) (l : list value) : res (list string) :=
  match l with
  | [] => Ok []
  | VStr s :: l' =>
      rest <- join_items (S i) l' ;;
      Ok (s :: rest)
  | v :: _ =>
      Raise (TypeError ("sequence item " ++ NilZero.string_of_uint (Nat.to_uint i)
                        ++ ": expected str instance, " ++ type_name v ++ " found"))
  end.

(** [sep.join(obj)]. *)
Definition py_join (sep : string) (obj : value) : res string :=
  match obj with
  | VList l =>
      items <- join_items 0 l ;;
      Ok (String.concat sep items)
  | VDict d => Ok (String.concat sep (map fst d))
  | VStr s => Ok (String.concat sep (chars s))
  | _ => Raise (TypeError "can only join an iterable")
  end.

(** [explanations.append(fragment)]. *)
Definition append (explanations : list string) (fragment : string) : list string :=
  (explanations ++ [fragment])%list.

Section Explanation.
Context `{Interp}.

(** [repr(v)]. *)
Fixpoint py_repr (v : value) : string :=
  match v with
  | VNone => "None"
  | VBool true => "True"
  | VBool false => "False"
  | VInt z => NilZero.string_of_int (Z.to_int z)
  | VFloat f => float_repr f
  | VStr s => str_repr s
  | VList l => "[" ++ String.concat ", " (map py_repr l) ++ "]"
  | VDict d =>
      "{" ++ String.concat ", "
               (map (fun kv => str_repr (fst kv) ++ ": " ++ py_repr (snd kv)) d)
          ++ "}"
  end.

(** [str(v)], which is also what an f-string field [{v}] prints. *)
Definition py_str (v : value) : string :=
  match v with
  | VStr s => s
  | _ => py_repr v
  end.

(** [str(e)]. *)
Definition exn_str (e : exn) : string :=
  match e with
  | KeyError key => str_repr key
  | JSONDecodeError msg
  | TypeError msg
  | AttributeError msg
  | OtherException msg => msg
  end.

(** ** generate_explanation *)

(** The test [key in state and state[key]] that guards each of the three
    blocks. *)
Definition present_and_truthy (key : string) (state : value) : res bool :=
  present <- py_contains key state ;;
  if present then
    v <- py_getitem state key ;;
    Ok (py_truthy v)
  else Ok false.

(** The body of [for col, filter_def in filters.items()]. *)
Fixpoint filter_loop (items : dict) (explanations : list string) : res (list string) :=
  match items with
  | [] => Ok explanations
  | (col, filter_def) :: items' =>
      filter_value <- py_get filter_def "filter" (VStr EmptyString) ;;
      filter_type <- py_get filter_def "type" (VStr "contains") ;;
      filter_loop items'
        (append explanations
           ("Filtered " ++ col ++ " " ++ py_str filter_type
            ++ " '" ++ py_str filter_value ++ "'"))
  end.

Definition check_filters (state : value) (explanations : list string) : res (list string) :=
  guard <- present_and_truthy "filterModel" state ;;
  if guard then
    filters <- py_getitem state "filterModel" ;;
    items <- py_items filters ;;
    filter_loop items explanations
  else Ok explanations.

(** The body of [for sort in state['sortModel']]. *)
Fixpoint sort_loop (entries : list value) (explanations : list string) : res (list string) :=
  match entries with
  | [] => Ok explanations
  | sort :: entries' =>
      col <- py_getitem sort "colId" ;;
      order <- py_getitem sort "sort" ;;
      let direction := if py_eq_str order "desc" then "descending" else "ascending" in
      sort_loop entries'
        (append explanations ("Sorted by " ++ py_str col ++ " (" ++ direction ++ ")"))
  end.

Definition check_sorting (state : value) (explanations : list string) : res (list string) :=
  guard <- present_and_truthy "sortModel" state ;;
  if guard then
    sort_model <- py_getitem state "sortModel" ;;
    entries <- py_iter sort_model ;;
    sort_loop entries explanations
  else Ok explanations.

Definition check_grouping (state : value) (explanations : list string) : res (list string) :=
  guard <- present_and_truthy "rowGroupColumns" state ;;
  if guard then
    columns <- py_getitem state "rowGroupColumns" ;;
    cols <- py_join ", " columns ;;
    Ok (append explanations ("Grouped by " ++ cols))
  else Ok explanations.

Definition generate_explanation (query : value) (state : value) : res string :=
  explanations <- check_filters state [] ;;
  explanations <- check_sorting state explanations ;;
  explanations <- check_grouping state explanations ;;
  match explanations with
  | [] => Ok ("Applied query: " ++ py_str query)
  | _ => Ok (String.concat " | " explanations)
  end.

End Explanation.

(** ** The prompt *)

Definition quoted (s : string) : string := dq ++ s ++ dq.

(** The text of a block of lines, each ended by a newline. *)
Fixpoint unlines (ls : list string) : string :=
  match ls with
  | [] => EmptyString
  | l :: ls' => l ++ nl ++ unlines ls'
  end.

Definition prompt_intro : string :=
  "You are an AI assistant that converts natural language queries into AG Grid state changes.".

(** The four static column descriptions of the prompt. *)
Definition parcels_columns : list string :=
  [ "Parcels tab:";
    "- mode_of_transport: " ++ quoted "TRUCK" ++ " or " ++ quoted "AIR" ++ " (shipping method)";
    "- tracking_number: Parcel tracking ID";
    "- trip_number: Shipment/trip identifier";
    "- scac_code: Carrier code";
    "- consignee_name: Company receiving the parcel";
    "- weight: Parcel weight in kilograms";
    "- commercial_value: Value in USD";
    "- origin_country: Country of origin";
    "- dest_country: Destination country";
    "- source_file: Excel file this parcel came from" ].

Definition emails_columns : list string :=
  [ "Emails tab:";
    "- from_email: Sender email address (e.g., jency.varghese@spring-gds.com, thomas@rh-brokerage.com)";
    "- subject: Email subject line";
    "- received_date: When email was received";
    "- type: " ++ quoted "TRUCK" ++ " (DSLQ emails), " ++ quoted "AIR"
      ++ " (ORD/USA emails), or generic" ].

Definition shipments_columns : list string :=
  [ "Shipments tab:";
    "- trip_number: Trip/AWB identifier";
    "- mode: " ++ quoted "TRUCK" ++ " or " ++ quoted "AIR";
    "- parcel_count: Number of parcels in shipment";
    "- total_weight: Total weight of shipment";
    "- source_file: Source file name" ].

Definition attachments_columns : list string :=
  [ "Attachments tab:";
    "- filename: Name of attached file";
    "- from_email: Sender who sent the attachment";
    "- size: File size in bytes";
    "- received_date: Date received" ].

Definition task_and_examples : list string :=
  [ "Your task:";
    "1. Understand what the user wants to do with the grid";
    "2. Generate a NEW grid state that accomplishes their goal";
    "3. Return ONLY valid JSON matching the schema structure";
    EmptyString;
    "Common operations:";
    "- Filtering: Use filterModel to filter by column values";
    "- Sorting: Use sortModel to sort columns";
    "- Grouping: Use rowGroupColumns and groupKeys";
    "- Column visibility: Use columnState to hide/show columns";
    EmptyString;
    "Examples:";
    "Query: " ++ quoted "Show me all TRUCK parcels";
    "Response: {" ++ quoted "filterModel" ++ ": {" ++ quoted "mode_of_transport" ++ ": {"
      ++ quoted "filterType" ++ ": " ++ quoted "text" ++ ", " ++ quoted "type" ++ ": "
      ++ quoted "equals" ++ ", " ++ quoted "filter" ++ ": " ++ quoted "TRUCK" ++ "}}}";
    EmptyString;
    "Query: " ++ quoted "Sort by weight highest first";
    "Response: {" ++ quoted "sortModel" ++ ": [{" ++ quoted "colId" ++ ": " ++ quoted "weight"
      ++ ", " ++ quoted "sort" ++ ": " ++ quoted "desc" ++ "}]}";
    EmptyString;
    "Query: " ++ quoted "Show emails from Jency";
    "Response: {" ++ quoted "filterModel" ++ ": {" ++ quoted "from_email" ++ ": {"
      ++ quoted "filterType" ++ ": " ++ quoted "text" ++ ", " ++ quoted "type" ++ ": "
      ++ quoted "contains" ++ ", " ++ quoted "filter" ++ ": " ++ quoted "jency" ++ "}}}";
    EmptyString;
    "Query: " ++ quoted "Group by mode of transport";
    "Response: {" ++ quoted "rowGroupColumns" ++ ": [" ++ quoted "mode_of_transport" ++ "]}";
    EmptyString;
    "Query: " ++ quoted "Filter to October parcels";
    "Response: {" ++ quoted "filterModel" ++ ": {" ++ quoted "source_file" ++ ": {"
      ++ quoted "filterType" ++ ": " ++ quoted "text" ++ ", " ++ quoted "type" ++ ": "
      ++ quoted "contains" ++ ", " ++ quoted "filter" ++ ": " ++ quoted "OCT" ++ "}}}";
    EmptyString;
    "Now generate the new state for the user's query. Return ONLY valid JSON." ].

(** ** The request handler *)

(** What the handler takes from outside: the JSON serializer and parser of
    the standard library, and the external model.  [generate_content prompt]
    is the reply's text, or the exception that the call or the reading of the
    reply raises. *)
Class Services : Type := {
  json_dumps : value -> string;
  json_loads : string -> res value;
  generate_content : string -> res string
}.

Record response : Type := mk_response {
  status : Z;
  body : dict
}.

(** A computation that may raise and that records the prompts sent to the
    external model. *)
Definition io (A : Type) : Type := list string -> res A * list string.

Definition io_ret {A : Type} (a : A) : io A := fun sent => (Ok a, sent).

Definition io_bind {A B : Type} (c : io A) (k : A -> io B) : io B :=
  fun sent =>
    match c sent with
    | (Ok a, sent') => k a sent'
    | (Raise e, sent') => (Raise e, sent')
    end.

Definition lift {A : Type} (c : res A) : io A := fun sent => (c, sent).

Notation "x <~ c ;; k" := (io_bind c (fun x => k))
  (at level 61, c at next level, right associativity).

Section Handler.
Context `{Interp} `{Services}.

Definition system_prompt (tab grid_schema current_state user_query : value) : string :=
  unlines
    (List.concat
       [ [ prompt_intro;
           EmptyString;
           "CURRENT TAB: " ++ py_str tab;
           EmptyString;
           "AVAILABLE COLUMNS AND THEIR MEANINGS:" ];
         parcels_columns; [ EmptyString ];
         emails_columns; [ EmptyString ];
         shipments_columns; [ EmptyString ];
         attachments_columns; [ EmptyString ];
         [ "GRID SCHEMA:";
           json_dumps grid_schema;
           EmptyString;
           "CURRENT STATE:";
           json_dumps current_state;
           EmptyString;
           "USER QUERY: " ++ quoted (py_str user_query);
           EmptyString ];
         task_and_examples ]).

(** [model.generate_content(prompt, ...)] followed by [response.text]. *)
Definition model_text (prompt : string) : io string :=
  fun sent => (generate_content prompt, (sent ++ [prompt])%list).

Definition jsonify (code : Z) (payload : dict) : response :=
  {| status := code; body := payload |}.

(** The [try] block of [ai_query].  [request_json] is what evaluating
    [request.json] gives. *)
Definition ai_query_try (request_json : res value) : io response :=
  data <~ lift request_json ;;
  user_query <~ lift (py_get data "query" (VStr EmptyString)) ;;
  grid_schema <~ lift (py_get data "schema" (VDict [])) ;;
  current_state <~ lift (py_get data "currentState" (VDict [])) ;;
  tab <~ lift (py_get data "tab" (VStr "parcels")) ;;
  if negb (py_truthy user_query) then
    io_ret (jsonify 400 [("success", VBool false); ("error", VStr "No query provided")])
  else
    let prompt := system_prompt tab grid_schema current_state user_query in
    text <~ model_text prompt ;;
    new_state <~ lift (json_loads text) ;;
    explanation <~ lift (generate_explanation user_query new_state) ;;
    io_ret (jsonify 200 [("success", VBool true);
                         ("newState", new_state);
                         ("explanation", VStr explanation)]).

(** The two [except] clauses. *)
Definition except_clauses (e : exn) : response :=
  match e with
  | JSONDecodeError _ =>
      jsonify 500 [("success", VBool false);
                   ("error", VStr ("Invalid JSON response from AI: " ++ exn_str e))]
  | _ =>
      jsonify 500 [("success", VBool false); ("error", VStr (exn_str e))]
  end.

(** The handler: the response, and the prompts sent to the external model
    in order. *)
Definition ai_query (request_json : res value) : response * list string :=
  match ai_query_try request_json [] with
  | (Ok r, sent) => (r, sent)
  | (Raise e, sent) => (except_clauses e, sent)
  end.

End Handler.

(** ** Vocabulary of the statements *)

(** [sub] occurs in [s]. *)
Definition contains_text (sub s : string) : Prop :=
  exists pre post, s = pre ++ sub ++ post.

Definition with_default (o : option value) (default : value) : value :=
  match o with
  | Some v => v
  | None => default
  end.

(** The value [data.get(key, default)] of a request body that is an object. *)
Definition field (data : dict) (key : string) (default : value) : value :=
  with_default (lookup key data) default.

(** The tabs of the data model and the block of the prompt that describes
    each one's columns. *)
Inductive Tab : Type := emails | parcels | shipments | attachments.

Definition tab_name (t : Tab) : string :=
  match t with
  | emails => "emails"
  | parcels => "parcels"
  | shipments => "shipments"
  | attachments => "attachments"
  end.

Definition tab_description (t : Tab) : string :=
  unlines match t with
          | emails => emails_columns
          | parcels => parcels_columns
          | shipments => shipments_columns
          | attachments => attachments_columns
          end.

Definition is_json_decode_error (e : exn) : bool :=
  match e with
  | JSONDecodeError _ => true
  | _ => false
  end.

(** A string of blanks only, and at least one. *)
Definition is_blank (c : ascii) : bool :=
  match nat_of_ascii c with
  | 9 | 10 | 11 | 12 | 13 | 32 => true
  | _ => false
  end.

Definition whitespace_only (s : string) : bool :=
  negb (String.eqb s EmptyString) && forallb is_blank (list_ascii_of_string s).

(** The shape of a state patch, as far as the explanation reads it: a key
    that is present holds a value of the documented type. *)
Definition valid_filter_model (v : value) : bool :=
  match v with
  | VDict fm => forallb (fun entry => is_dict (snd entry)) fm
  | _ => false
  end.

Definition valid_sort_entry (v : value) : bool :=
  match v with
  | VDict d => has_key "colId" d && has_key "sort" d
  | _ => false
  end.

Definition valid_sort_model (v : value) : bool :=
  match v with
  | VList entries => forallb valid_sort_entry entries
  | _ => false
  end.

Definition valid_row_group_columns (v : value) : bool :=
  match v with
  | VList cols => forallb is_str cols
  | _ => false
  end.

Definition valid_at (key : string) (check : value -> bool) (state : dict) : bool :=
  match lookup key state with
  | Some v => check v
  | None => true
  end.

Definition valid_patch (state : dict) : bool :=
  valid_at "filterModel" valid_filter_model state
  && valid_at "sortModel" valid_sort_model state
  && valid_at "rowGroupColumns" valid_row_group_columns state.

(** A key that yields no fragment: absent, or present with an empty value. *)
Definition absent_or_empty (key : string) (state : dict) : bool :=
  match lookup key state with
  | Some v => negb (py_truthy v)
  | None => true
  end.

(** The three parts of a patch; a missing key counts as an empty part. *)
Definition filter_entries (state : dict) : dict :=
  match lookup "filterModel" state with
  | Some (VDict fm) => fm
  | _ => []
  end.

Definition sort_entries (state : dict) : list value :=
  match lookup "sortModel" state with
  | Some (VList entries) => entries
  | _ => []
  end.

Definition str_values (l : list value) : list string :=
  flat_map (fun v => match v with VStr s => [s] | _ => [] end) l.

Definition group_columns (state : dict) : list string :=
  match lookup "rowGroupColumns" state with
  | Some (VList cols) => str_values cols
  | _ => []
  end.

Section Fragments.
Context `{Interp}.

(** The fragment of one [filterModel] entry, in the words of the
    specification. *)
Inductive filter_fragment : string * value -> string -> Prop :=
| filter_fragment_of (column : string) (descriptor : dict) :
    filter_fragment (column, VDict descriptor)
      ("Filtered " ++ column ++ " "
       ++ py_str (with_default (lookup "type" descriptor) (VStr "contains"))
       ++ " '"
       ++ py_str (with_default (lookup "filter" descriptor) (VStr EmptyString))
       ++ "'").

(** The fragment of one [sortModel] entry, in the words of the
    specification. *)
Inductive sort_fragment : value -> string -> Prop :=
| sort_fragment_desc (entry : dict) (col : value) :
    lookup "colId" entry = Some col ->
    lookup "sort" entry = Some (VStr "desc") ->
    sort_fragment (VDict entry) ("Sorted by " ++ py_str col ++ " (descending)")
| sort_fragment_asc (entry : dict) (col order : value) :
    lookup "colId" entry = Some col ->
    lookup "sort" entry = Some order ->
    order <> VStr "desc" ->
    sort_fragment (VDict entry) ("Sorted by " ++ py_str col ++ " (ascending)").

(** The grouping fragment, in the words of the specification. *)
Definition group_fragments (cols : list string) : list string :=
  match cols with
  | [] => []
  | _ => ["Grouped by " ++ String.concat ", " cols]
  end.

(** The precondition under which the filter and the sort block return. *)
Definition entries_are_mappings (state : dict) : Prop :=
  (forall fm, lookup "filterModel" state = Some (VDict fm) ->
              Forall (fun entry => is_dict (snd entry) = true) fm)
  /\ (forall entries, lookup "sortModel" state = Some (VList entries) ->
                      Forall (fun entry => valid_sort_entry entry = true) entries).

End Fragments.

Section Requests.
Context `{Interp} `{Services}.

(** The prompt of a request whose body is the object [data]. *)
Definition request_prompt (data : dict) : string :=
  system_prompt (field data "tab" (VStr "parcels"))
                (field data "schema" (VDict []))
                (field data "currentState" (VDict []))
                (field data "query" (VStr EmptyString)).

(** What the handler does with the model's outcome, for the query
    [user_query]. *)
Definition after_model (user_query : value) (outcome : res string) : res response :=
  text <- outcome ;;
  new_state <- json_loads text ;;
  explanation <- generate_explanation user_query new_state ;;
  Ok (jsonify 200 [("success", VBool true);
                   ("newState", new_state);
                   ("explanation", VStr explanation)]).

Definition no_query_response : response :=
  jsonify 400 [("success", VBool false); ("error", VStr "No query provided")].

End Requests.

(** ** Instances to run the model with *)

(** An interpreter for the sample runs: its quoting is Python's for strings
    that hold no quote, backslash or control character, and the samples
    print no float. *)
#[local] Instance plain_interp : Interp := {|
  float_repr := fun _ => "nan";
  str_repr := fun s => "'" ++ s ++ "'"
|}.

(** A parser that knows the empty object and rejects every other text. *)
Definition parse_empty_object (text : string) : res value :=
  if String.eqb text "{}" then Ok (VDict [])
  else Raise (JSONDecodeError "Expecting value: line 1 column 1 (char 0)").

(** Services for the sample runs: the model call has the given outcome, the
    reply is parsed by [parse], and every value is serialized as the empty
    object. *)
Definition scripted_services (outcome : res string) (parse : string -> res value) : Services := {|
  json_dumps := fun _ => "{}";
  json_loads := parse;
  generate_content := fun _ => outcome
|}.

Definition canned_services (outcome : res string) : Services :=
  scripted_services outcome parse_empty_object.

(** ** Sample patches and requests *)

Definition jency_filter : value :=
  VDict [("from_email",
          VDict [("filterType", VStr "text"); ("type", VStr "contains");
                 ("filter", VStr "jency")])].

Definition weight_sort : value :=
  VList [VDict [("colId", VStr "weight"); ("sort", VStr "desc")]].

Definition transport_groups : value :=
  VList [VStr "mode_of_transport"; VStr "origin_country"].

Definition full_patch : dict :=
  [("filterModel", jency_filter); ("sortModel", weight_sort);
   ("rowGroupColumns", transport_groups)].

Definition truck_request : dict :=
  [("query", VStr "Show me all TRUCK parcels"); ("tab", VStr "parcels")].

Definition jency_request : dict :=
  [("query", VStr "Show emails from Jency"); ("tab", VStr "emails")].

Definition blank_query_request : dict := [("query", VStr " ")].


(** A sort entry without its [colId]. *)
Definition no_col_id_patch : dict :=
  [("sortModel", VList [VDict [("sort", VStr "desc")]])].

(** ** The health endpoint *)

Definition health : response :=
  jsonify 200 [("status", VStr "healthy"); ("model", VStr "gemini-2.0-flash-exp")].

(** ** Vocabulary of the further statements *)

(** The exceptions that the interpreter raises on its own: a missing key, an
    operation on a value of the wrong type, a missing method. *)
Definition raised_by_interpreter (e : exn) : bool :=
  match e with
  | KeyError _ | TypeError _ | AttributeError _ => true
  | _ => false
  end.

(** The keys that [generate_explanation] reads. *)
Definition explained_keys : list string :=
  ["filterModel"; "sortModel"; "rowGroupColumns"].

(** A list that has one of the three keys among its elements, or a string
    that has one of them as a substring. *)
Definition mentions_explained_key (state : value) : bool :=
  match state with
  | VList l => existsb (fun k => existsb (fun v => py_eq_str v k) l) explained_keys
  | VStr s => existsb (fun k => is_infix k s) explained_keys
  | _ => false
  end.

(** The text starts with one of the four labels of an explanation. *)
Definition has_label (s : string) : bool :=
  prefix "Applied query: " s || prefix "Filtered " s
  || prefix "Sorted by " s || prefix "Grouped by " s.

(** The three shapes of an answer of [ai_query]. *)
Inductive response_shape : response -> Prop :=
| shape_success (new_state : value) (explanation : string) :
    response_shape
      {| status := 200;
         body := [("success", VBool true); ("newState", new_state);
                  ("explanation", VStr explanation)] |}
| shape_no_query :
    response_shape
      {| status := 400;
         body := [("success", VBool false); ("error", VStr "No query provided")] |}
| shape_failure (message : string) :
    response_shape
      {| status := 500;
         body := [("success", VBool false); ("error", VStr message)] |}.

(** The text printed for a position in a sequence. *)
Definition decimal (n : nat) : string := NilZero.string_of_uint (Nat.to_uint n).

(** ** Further samples *)

(** The patch of [full_patch] with its keys in another order and a key that
    the explanation does not read. *)
Definition shuffled_patch : dict :=
  [("columnState", VList [VDict [("colId", VStr "weight"); ("hide", VBool true)]]);
   ("rowGroupColumns", transport_groups); ("sortModel", weight_sort);
   ("filterModel", jency_filter)].

Definition sort_without_order_patch : dict :=
  [("filterModel", jency_filter);
   ("sortModel",
    VList [VDict [("colId", VStr "weight"); ("sort", VStr "desc")];
           VDict [("colId", VStr "trip_number")]])].

Definition filter_with_text_descriptor_patch : dict :=
  [("filterModel", VDict [("mode", VStr "TRUCK")])].

Definition numbered_groups_patch : dict :=
  [("sortModel", weight_sort);
   ("rowGroupColumns", VList [VStr "mode_of_transport"; VInt 2])].

Definition truck_request_on_emails : dict :=
  [("query", VStr "Show me all TRUCK parcels"); ("tab", VStr "emails");
   ("schema", VDict [("columns", VList [])])].

Definition bare_request : dict := [("query", VStr "Sort by weight")].

(** ** JSON texts *)

(** The grammar of JSON texts (RFC 8259), for the statements that say
    whether a reply is valid JSON.  It is not the parser that the handler
    calls: that one is the [json_loads] of [Services].  Each [scan_]
    function returns what follows the part it recognises. *)

Definition dq_char : ascii := ascii_of_nat 34.

Definition is_json_ws (c : ascii) : bool :=
  match nat_of_ascii c with
  | 9 | 10 | 13 | 32 => true
  | _ => false
  end.

Definition is_digit (c : ascii) : bool :=
  Nat.leb 48 (nat_of_ascii c) && Nat.leb (nat_of_ascii c) 57.

Definition is_hex_digit (c : ascii) : bool :=
  is_digit c
  || (Nat.leb 65 (nat_of_ascii c) && Nat.leb (nat_of_ascii c) 70)
  || (Nat.leb 97 (nat_of_ascii c) && Nat.leb (nat_of_ascii c) 102).

Fixpoint skip_while (p : ascii -> bool) (l : list ascii) : list ascii :=
  match l with
  | c :: l1 => if p c then skip_while p l1 else l
  | [] => []
  end.

Fixpoint strip_prefix (p l : list ascii) : option (list ascii) :=
  match p, l with
  | [], _ => Some l
  | a :: p1, b :: l1 => if Ascii.eqb a b then strip_prefix p1 l1 else None
  | _ :: _, [] => None
  end.

(** A string, after its opening quote. *)
Fixpoint scan_string_body (l : list ascii) : option (list ascii) :=
  match l with
  | [] => None
  | c :: l1 =>
      if Ascii.eqb c dq_char then Some l1
      else if Ascii.eqb c "\" then
        match l1 with
        | [] => None
        | e :: l2 =>
            if existsb (Ascii.eqb e) (dq_char :: list_ascii_of_string "\/bfnrt")
            then scan_string_body l2
            else if Ascii.eqb e "u" then
              match l2 with
              | h1 :: h2 :: h3 :: h4 :: l3 =>
                  if forallb is_hex_digit [h1; h2; h3; h4]
                  then scan_string_body l3
                  else None
              | _ => None
              end
            else None
        end
      else if Nat.ltb (nat_of_ascii c) 32 then None
      else scan_string_body l1
  end.

Definition scan_digits1 (l : list ascii) : option (list ascii) :=
  match l with
  | d :: l1 => if is_digit d then Some (skip_while is_digit l1) else None
  | [] => None
  end.

Definition scan_int (l : list ascii) : option (list ascii) :=
  match l with
  | d :: l1 =>
      if Ascii.eqb d "0" then Some l1
      else if is_digit d then Some (skip_while is_digit l1)
      else None
  | [] => None
  end.

Definition scan_frac (l : list ascii) : option (list ascii) :=
  match l with
  | c :: l1 => if Ascii.eqb c "." then scan_digits1 l1 else Some l
  | [] => Some l
  end.

Definition scan_exp (l : list ascii) : option (list ascii) :=
  match l with
  | c :: l1 =>
      if Ascii.eqb c "e" || Ascii.eqb c "E" then
        match l1 with
        | sign :: l2 =>
            if Ascii.eqb sign "+" || Ascii.eqb sign "-" then scan_digits1 l2
            else scan_digits1 l1
        | [] => None
        end
      else Some l
  | [] => Some l
  end.

Definition scan_number (l : list ascii) : option (list ascii) :=
  let unsigned :=
    match l with
    | c :: l1 => if Ascii.eqb c "-" then l1 else l
    | [] => l
    end in
  match scan_int unsigned with
  | Some l1 =>
      match scan_frac l1 with
      | Some l2 => scan_exp l2
      | None => None
      end
  | None => None
  end.

(** A value with the blanks before it; the members of an object after its
    opening brace; the elements of an array after its opening bracket. *)
Fixpoint scan_value (fuel : nat) (l : list ascii) : option (list ascii) :=
  match fuel with
  | O => None
  | S fuel1 =>
      match skip_while is_json_ws l with
      | [] => None
      | c :: l1 =>
          if Ascii.eqb c "{" then
            match skip_while is_json_ws l1 with
            | c1 :: l2 =>
                if Ascii.eqb c1 "}" then Some l2
                else scan_members fuel1 (c1 :: l2)
            | [] => None
            end
          else if Ascii.eqb c "[" then
            match skip_while is_json_ws l1 with
            | c1 :: l2 =>
                if Ascii.eqb c1 "]" then Some l2
                else scan_elements fuel1 (c1 :: l2)
            | [] => None
            end
          else if Ascii.eqb c dq_char then scan_string_body l1
          else if Ascii.eqb c "t" then
            strip_prefix (list_ascii_of_string "true") (c :: l1)
          else if Ascii.eqb c "f" then
            strip_prefix (list_ascii_of_string "false") (c :: l1)
          else if Ascii.eqb c "n" then
            strip_prefix (list_ascii_of_string "null") (c :: l1)
          else if is_digit c || Ascii.eqb c "-" then scan_number (c :: l1)
          else None
      end
  end
with scan_members (fuel : nat) (l : list ascii) : option (list ascii) :=
  match fuel with
  | O => None
  | S fuel1 =>
      match skip_while is_json_ws l with
      | quote :: l1 =>
          if Ascii.eqb quote dq_char then
            match scan_string_body l1 with
            | Some l2 =>
                match skip_while is_json_ws l2 with
                | colon :: l3 =>
                    if Ascii.eqb colon ":" then
                      match scan_value fuel1 l3 with
                      | Some l4 =>
                          match skip_while is_json_ws l4 with
                          | d :: l5 =>
                              if Ascii.eqb d "," then scan_members fuel1 l5
                              else if Ascii.eqb d "}" then Some l5
                              else None
                          | [] => None
                          end
                      | None => None
                      end
                    else None
                | [] => None
                end
            | None => None
            end
          else None
      | [] => None
      end
  end
with scan_elements (fuel : nat) (l : list ascii) : option (list ascii) :=
  match fuel with
  | O => None
  | S fuel1 =>
      match scan_value fuel1 l with
      | Some l1 =>
          match skip_while is_json_ws l1 with
          | d :: l2 =>
              if Ascii.eqb d "," then scan_elements fuel1 l2
              else if Ascii.eqb d "]" then Some l2
              else None
          | [] => None
          end
      | None => None
      end
  end.

(** The text is one JSON value between blanks.  Every scanner call either
    reads a character or is followed at once by a call that does, so twice
    the length of the text is fuel enough. *)
Definition is_valid_json (text : string) : bool :=
  let l := list_ascii_of_string text in
  match scan_value (2 * List.length l + 2) l with
  | Some rest =>
      match skip_while is_json_ws rest with
      | [] => true
      | _ :: _ => false
      end
  | None => false
  end.

(** A reply with the literal [NaN], which is not in the grammar, and what
    the parser of the standard library makes of it: it reads [NaN],
    [Infinity] and [-Infinity] as floats. *)
Definition nan_reply : string := "{" ++ quoted "x" ++ ": NaN}".

Definition nan_patch : value := VDict [("x", VFloat S754_nan)].

(** A reply of two thousand opening brackets, on which the parser of
    the standard library gives up with a [RecursionError]. *)
Definition deep_reply : string :=
  String.concat EmptyString (repeat "[" 2000).

Definition deep_reply_error : exn :=
  OtherException
    "maximum recursion depth exceeded while decoding a JSON array from a unicode string".

Definition parse_nan_reply (text : string) : res value :=
  if String.eqb text nan_reply then Ok nan_patch else parse_empty_object text.

(** ** Facts about the Python primitives *)

Lemma append_assoc (a b c : string) : (a ++ b) ++ c = a ++ b ++ c.
Proof.
  induction a as [| x a IH]; simpl; [reflexivity | now rewrite IH].
Qed.

Lemma unlines_app (xs ys : list string) :
  unlines (xs ++ ys)%list = unlines xs ++ unlines ys.
Proof.
  induction xs as [| x xs IH]; simpl.
  - reflexivity.
  - now rewrite IH, !append_assoc.
Qed.

Lemma contains_text_middle (pre sub post : string) :
  contains_text sub (pre ++ sub ++ post).
Proof. now exists pre, post. Qed.

Lemma lookup_has_key {A : Type} (k : string) (d : list (string * A)) :
  has_key k d = true -> exists v, lookup k d = Some v.
Proof.
  unfold has_key. destruct (lookup k d) as [v |]; [now exists v | discriminate].
Qed.

Lemma join_items_strings (l : list value) (i : nat) :
  forallb is_str l = true -> join_items i l = Ok (str_values l).
Proof.
  revert i. induction l as [| v l IH]; intros i Hl; simpl in *.
  - reflexivity.
  - apply andb_prop in Hl as [Hv Hl].
    destruct v; try discriminate. simpl.
    now rewrite (IH (S i) Hl).
Qed.

Lemma str_values_nil (l : list value) :
  forallb is_str l = true -> str_values l = [] -> l = [].
Proof.
  destruct l as [| v l]; [reflexivity |].
  simpl. intros Hl. apply andb_prop in Hl as [Hv _].
  destruct v; discriminate.
Qed.

Section ExplanationFacts.
Context `{Interp}.

Lemma present_and_truthy_dict (key : string) (state : dict) :
  present_and_truthy key (VDict state) = Ok (negb (absent_or_empty key state)).
Proof.
  unfold present_and_truthy, absent_or_empty, py_contains, has_key, py_getitem.
  simpl. destruct (lookup key state) as [v |]; simpl.
  - now rewrite negb_involutive.
  - reflexivity.
Qed.

(** The filter loop appends one fragment per entry, in order. *)
Lemma filter_loop_fragments (fm : dict) :
  forallb (fun entry => is_dict (snd entry)) fm = true ->
  exists fragments,
    Forall2 filter_fragment fm fragments
    /\ forall explanations,
         filter_loop fm explanations = Ok (explanations ++ fragments)%list.
Proof.
  induction fm as [| [col filter_def] fm IH]; intros Hfm.
  - exists []. split; [constructor | intros; simpl; now rewrite app_nil_r].
  - simpl in Hfm. apply andb_prop in Hfm as [Hd Hfm].
    destruct filter_def as [| | | | | | d]; try discriminate.
    set (fragment := "Filtered " ++ col ++ " "
                     ++ py_str (with_default (lookup "type" d) (VStr "contains"))
                     ++ " '"
                     ++ py_str (with_default (lookup "filter" d) (VStr EmptyString))
                     ++ "'").
    destruct (IH Hfm) as (rest & Hrest & Hloop).
    exists (fragment :: rest). split.
    + constructor; [apply filter_fragment_of | exact Hrest].
    + intros explanations. simpl. unfold py_get.
      destruct (lookup "filter" d) as [fv |]; destruct (lookup "type" d) as [ty |];
        simpl;
        (etransitivity; [exact (Hloop (append explanations fragment)) |]);
        unfold append; now rewrite <- app_assoc.
Qed.

Lemma py_eq_str_true (v : value) (s : string) :
  py_eq_str v s = true <-> v = VStr s.
Proof.
  destruct v; simpl; try (split; [discriminate | intros E; discriminate E]).
  rewrite String.eqb_eq. split; [now intros -> | now intros [= ->]].
Qed.

(** The sort loop appends one fragment per entry, in order. *)
Lemma sort_loop_fragments (entries : list value) :
  forallb valid_sort_entry entries = true ->
  exists fragments,
    Forall2 sort_fragment entries fragments
    /\ forall explanations,
         sort_loop entries explanations = Ok (explanations ++ fragments)%list.
Proof.
  induction entries as [| entry entries IH]; intros Hall.
  - exists []. split; [constructor | intros; simpl; now rewrite app_nil_r].
  - simpl in Hall. apply andb_prop in Hall as [Hentry Hall].
    destruct entry as [| | | | | | d]; try discriminate.
    simpl in Hentry. apply andb_prop in Hentry as [Hcol Hsort].
    apply lookup_has_key in Hcol as [col Hcol].
    apply lookup_has_key in Hsort as [order Hsort].
    set (direction := if py_eq_str order "desc" then "descending" else "ascending").
    set (fragment := "Sorted by " ++ py_str col ++ " (" ++ direction ++ ")").
    destruct (IH Hall) as (rest & Hrest & Hloop).
    exists (fragment :: rest). split.
    + constructor; [| exact Hrest].
      subst fragment direction.
      destruct (py_eq_str order "desc") eqn:Hdesc.
      * apply py_eq_str_true in Hdesc. subst order.
        now apply sort_fragment_desc.
      * apply sort_fragment_asc with (order := order); trivial.
        intros ->. simpl in Hdesc. discriminate.
    + intros explanations. simpl. rewrite Hcol, Hsort. simpl.
      etransitivity; [exact (Hloop (append explanations fragment)) |].
      unfold append. now rewrite <- app_assoc.
Qed.

Lemma check_filters_dict (state : dict) (explanations : list string) :
  check_filters (VDict state) explanations =
  match lookup "filterModel" state with
  | Some v =>
      if py_truthy v then items <- py_items v ;; filter_loop items explanations
      else Ok explanations
  | None => Ok explanations
  end.
Proof.
  unfold check_filters. rewrite present_and_truthy_dict.
  unfold absent_or_empty. simpl.
  destruct (lookup "filterModel" state) as [v |]; [| reflexivity].
  rewrite negb_involutive. now destruct (py_truthy v).
Qed.

Lemma check_sorting_dict (state : dict) (explanations : list string) :
  check_sorting (VDict state) explanations =
  match lookup "sortModel" state with
  | Some v =>
      if py_truthy v then entries <- py_iter v ;; sort_loop entries explanations
      else Ok explanations
  | None => Ok explanations
  end.
Proof.
  unfold check_sorting. rewrite present_and_truthy_dict.
  unfold absent_or_empty. simpl.
  destruct (lookup "sortModel" state) as [v |]; [| reflexivity].
  rewrite negb_involutive. now destruct (py_truthy v).
Qed.

Lemma check_grouping_dict (state : dict) (explanations : list string) :
  check_grouping (VDict state) explanations =
  match lookup "rowGroupColumns" state with
  | Some v =>
      if py_truthy v then
        cols <- py_join ", " v ;; Ok (append explanations ("Grouped by " ++ cols))
      else Ok explanations
  | None => Ok explanations
  end.
Proof.
  unfold check_grouping. rewrite present_and_truthy_dict.
  unfold absent_or_empty. simpl.
  destruct (lookup "rowGroupColumns" state) as [v |]; [| reflexivity].
  rewrite negb_involutive. now destruct (py_truthy v).
Qed.

(** The three blocks on a patch of the documented shape. *)
Lemma check_filters_valid (state : dict) :
  valid_at "filterModel" valid_filter_model state = true ->
  exists fragments,
    Forall2 filter_fragment (filter_entries state) fragments
    /\ forall explanations,
         check_filters (VDict state) explanations = Ok (explanations ++ fragments)%list.
Proof.
  unfold valid_at, filter_entries.
  destruct (lookup "filterModel" state) as [v |] eqn:Hlookup.
  - intros Hv. destruct v as [| | | | | | fm]; try discriminate.
    simpl in Hv.
    destruct (filter_loop_fragments fm Hv) as (fragments & Hfr & Hloop).
    exists fragments. split; [exact Hfr |].
    intros explanations. rewrite check_filters_dict, Hlookup.
    destruct fm as [| entry fm]; [| exact (Hloop explanations)].
    inversion Hfr. simpl. now rewrite app_nil_r.
  - intros _. exists []. split; [constructor |].
    intros explanations. rewrite check_filters_dict, Hlookup. now rewrite app_nil_r.
Qed.

Lemma check_sorting_valid (state : dict) :
  valid_at "sortModel" valid_sort_model state = true ->
  exists fragments,
    Forall2 sort_fragment (sort_entries state) fragments
    /\ forall explanations,
         check_sorting (VDict state) explanations = Ok (explanations ++ fragments)%list.
Proof.
  unfold valid_at, sort_entries.
  destruct (lookup "sortModel" state) as [v |] eqn:Hlookup.
  - intros Hv. destruct v as [| | | | | entries |]; try discriminate.
    simpl in Hv.
    destruct (sort_loop_fragments entries Hv) as (fragments & Hfr & Hloop).
    exists fragments. split; [exact Hfr |].
    intros explanations. rewrite check_sorting_dict, Hlookup.
    destruct entries as [| entry entries]; [| exact (Hloop explanations)].
    inversion Hfr. simpl. now rewrite app_nil_r.
  - intros _. exists []. split; [constructor |].
    intros explanations. rewrite check_sorting_dict, Hlookup. now rewrite app_nil_r.
Qed.

Lemma check_grouping_valid (state : dict) (explanations : list string) :
  valid_at "rowGroupColumns" valid_row_group_columns state = true ->
  check_grouping (VDict state) explanations =
  Ok (explanations ++ group_fragments (group_columns state))%list.
Proof.
  unfold valid_at, group_columns. rewrite check_grouping_dict.
  destruct (lookup "rowGroupColumns" state) as [v |].
  - intros Hv. destruct v as [| | | | | cols |]; try discriminate.
    simpl in Hv.
    destruct cols as [| c cols].
    + simpl. now rewrite app_nil_r.
    + change (py_truthy (VList (c :: cols))) with true.
      unfold py_join. rewrite (join_items_strings _ 0 Hv).
      pose proof (str_values_nil _ Hv) as Hnil.
      destruct (str_values (c :: cols)) as [| s l];
        [discriminate (Hnil eq_refl) | reflexivity].
  - intros _. simpl. now rewrite app_nil_r.
Qed.

End ExplanationFacts.

Section BlockFacts.
Context `{Interp}.

Lemma check_filters_skip (state : dict) (explanations : list string) :
  absent_or_empty "filterModel" state = true ->
  check_filters (VDict state) explanations = Ok explanations.
Proof.
  rewrite check_filters_dict. unfold absent_or_empty.
  destruct (lookup "filterModel" state) as [v |]; [| reflexivity].
  now destruct (py_truthy v).
Qed.

Lemma check_sorting_skip (state : dict) (explanations : list string) :
  absent_or_empty "sortModel" state = true ->
  check_sorting (VDict state) explanations = Ok explanations.
Proof.
  rewrite check_sorting_dict. unfold absent_or_empty.
  destruct (lookup "sortModel" state) as [v |]; [| reflexivity].
  now destruct (py_truthy v).
Qed.

Lemma check_grouping_skip (state : dict) (explanations : list string) :
  absent_or_empty "rowGroupColumns" state = true ->
  check_grouping (VDict state) explanations = Ok explanations.
Proof.
  rewrite check_grouping_dict. unfold absent_or_empty.
  destruct (lookup "rowGroupColumns" state) as [v |]; [| reflexivity].
  now destruct (py_truthy v).
Qed.

(** The result of [generate_explanation] from the results of its blocks. *)
Lemma generate_explanation_blocks (query state : value) (a b c : list string) :
  check_filters state [] = Ok a ->
  check_sorting state a = Ok b ->
  check_grouping state b = Ok c ->
  generate_explanation query state =
  Ok (match c with
      | [] => "Applied query: " ++ py_str query
      | _ => String.concat " | " c
      end).
Proof.
  intros Ha Hb Hc. unfold generate_explanation.
  rewrite Ha. simpl. rewrite Hb. simpl. rewrite Hc. simpl.
  now destruct c.
Qed.

(** A run that returns went through all three blocks. *)
Lemma generate_explanation_returns (query state : value) (s : string) :
  generate_explanation query state = Ok s ->
  exists a b c,
    check_filters state [] = Ok a
    /\ check_sorting state a = Ok b
    /\ check_grouping state b = Ok c.
Proof.
  unfold generate_explanation. intros Hrun.
  destruct (check_filters state []) as [a | e] eqn:Ha; [| discriminate].
  simpl in Hrun.
  destruct (check_sorting state a) as [b | e] eqn:Hb; [| discriminate].
  simpl in Hrun.
  destruct (check_grouping state b) as [c | e] eqn:Hc; [| discriminate].
  now exists a, b, c.
Qed.

Lemma filter_loop_returns (fm : dict) (explanations out : list string) :
  filter_loop fm explanations = Ok out ->
  Forall (fun entry => is_dict (snd entry) = true) fm.
Proof.
  revert explanations.
  induction fm as [| [col filter_def] fm IH]; intros explanations Hrun.
  - constructor.
  - simpl in Hrun.
    destruct filter_def as [| | | | | | d]; try discriminate.
    constructor; [reflexivity |].
    unfold py_get in Hrun.
    destruct (lookup "filter" d), (lookup "type" d); simpl in Hrun;
      eapply IH; exact Hrun.
Qed.

Lemma sort_loop_returns (entries : list value) (explanations out : list string) :
  sort_loop entries explanations = Ok out ->
  Forall (fun entry => valid_sort_entry entry = true) entries.
Proof.
  revert explanations.
  induction entries as [| entry entries IH]; intros explanations Hrun.
  - constructor.
  - simpl in Hrun.
    destruct entry as [| | | | | | d]; try discriminate.
    unfold py_getitem in Hrun.
    destruct (lookup "colId" d) as [col |] eqn:Hcol; [| discriminate].
    simpl in Hrun.
    destruct (lookup "sort" d) as [order |] eqn:Hsort; [| discriminate].
    simpl in Hrun.
    constructor; [| eapply IH; exact Hrun].
    simpl. unfold has_key. now rewrite Hcol, Hsort.
Qed.

End BlockFacts.

(** ** The explanation generator *)

Section ExplanationClaims.
Context `{Interp}.

(** C5.  On every state patch of the documented shape, whatever combination
    of [filterModel], [sortModel] and [rowGroupColumns] it holds,
    [generate_explanation] returns: the fragments are the filter fragments
    of the entries in order, then the sort fragments of the entries in
    order, then, when [rowGroupColumns] is not empty, the one fragment
    [Grouped by] followed by the columns joined by a comma and a space;
    they are joined by [" | "].  With no fragment at all the result is the
    fallback text. *)
Theorem explanation_fragments_in_order (query : value) (state : dict) :
  valid_patch state = true ->
  exists filters sorts,
    Forall2 filter_fragment (filter_entries state) filters
    /\ Forall2 sort_fragment (sort_entries state) sorts
    /\ generate_explanation query (VDict state) =
       Ok (match (filters ++ sorts ++ group_fragments (group_columns state))%list with
           | [] => "Applied query: " ++ py_str query
           | fragments => String.concat " | " fragments
           end).
Proof.
  unfold valid_patch. intros Hvalid.
  apply andb_prop in Hvalid as [Hvalid Hgroups].
  apply andb_prop in Hvalid as [Hfilters Hsorts].
  destruct (check_filters_valid state Hfilters) as (filters & Hff & Hcf).
  destruct (check_sorting_valid state Hsorts) as (sorts & Hsf & Hcs).
  exists filters, sorts. split; [exact Hff |]. split; [exact Hsf |].
  rewrite (generate_explanation_blocks query (VDict state)
             filters (filters ++ sorts)
             ((filters ++ sorts) ++ group_fragments (group_columns state))).
  - rewrite <- app_assoc.
    now destruct (filters ++ sorts ++ group_fragments (group_columns state))%list.
  - exact (Hcf []).
  - exact (Hcs filters).
  - now apply check_grouping_valid.
Qed.

(** C6.  When every descriptor of [filterModel] is a mapping, the filter
    block appends, for each entry (column, descriptor) in the mapping's
    order, the fragment [Filtered <column> <type> '<filter>'], where
    [<type>] is the descriptor's [type] or [contains] when that key is
    missing, and [<filter>] is the descriptor's [filter] or the empty
    string when that key is missing.  When the patch sorts and groups
    nothing, these fragments joined by [" | "] are the explanation. *)
Theorem filter_entries_explained (query : value) (state fm : dict) :
  lookup "filterModel" state = Some (VDict fm) ->
  forallb (fun entry => is_dict (snd entry)) fm = true ->
  exists fragments,
    Forall2 filter_fragment fm fragments
    /\ (forall explanations,
          check_filters (VDict state) explanations
          = Ok (explanations ++ fragments)%list)
    /\ (fm <> [] ->
        absent_or_empty "sortModel" state = true ->
        absent_or_empty "rowGroupColumns" state = true ->
        generate_explanation query (VDict state)
        = Ok (String.concat " | " fragments)).
Proof.
  intros Hlookup Hfm.
  assert (Hvalid : valid_at "filterModel" valid_filter_model state = true)
    by (unfold valid_at; now rewrite Hlookup).
  destruct (check_filters_valid state Hvalid) as (fragments & Hfr & Hcf).
  unfold filter_entries in Hfr. rewrite Hlookup in Hfr.
  exists fragments. split; [exact Hfr |]. split; [exact Hcf |].
  intros Hne Hsort Hgroup.
  rewrite (generate_explanation_blocks query (VDict state)
             fragments fragments fragments).
  - destruct fragments; [| reflexivity].
    inversion Hfr. now subst.
  - exact (Hcf []).
  - now apply check_sorting_skip.
  - now apply check_grouping_skip.
Qed.

(** C7.  When every entry of the [sortModel] list is a mapping with the
    keys [colId] and [sort], the sort block appends, for each entry in
    sequence order, [Sorted by <colId> (descending)] when the entry's
    [sort] equals [desc] and [Sorted by <colId> (ascending)] for every
    other value.  When the patch filters and groups nothing, these
    fragments joined by [" | "] are the explanation. *)
Theorem sort_entries_explained (query : value) (state : dict) (entries : list value) :
  lookup "sortModel" state = Some (VList entries) ->
  forallb valid_sort_entry entries = true ->
  exists fragments,
    Forall2 sort_fragment entries fragments
    /\ (forall explanations,
          check_sorting (VDict state) explanations
          = Ok (explanations ++ fragments)%list)
    /\ (entries <> [] ->
        absent_or_empty "filterModel" state = true ->
        absent_or_empty "rowGroupColumns" state = true ->
        generate_explanation query (VDict state)
        = Ok (String.concat " | " fragments)).
Proof.
  intros Hlookup Hentries.
  assert (Hvalid : valid_at "sortModel" valid_sort_model state = true)
    by (unfold valid_at; now rewrite Hlookup).
  destruct (check_sorting_valid state Hvalid) as (fragments & Hfr & Hcs).
  unfold sort_entries in Hfr. rewrite Hlookup in Hfr.
  exists fragments. split; [exact Hfr |]. split; [exact Hcs |].
  intros Hne Hfilter Hgroup.
  rewrite (generate_explanation_blocks query (VDict state)
             [] fragments fragments).
  - destruct fragments; [| reflexivity].
    inversion Hfr. now subst.
  - now apply check_filters_skip.
  - exact (Hcs []).
  - now apply check_grouping_skip.
Qed.

(** C8.  For every query string and every patch in which each of
    [filterModel], [sortModel] and [rowGroupColumns] is absent or empty,
    the explanation is [Applied query: ] followed by the query text. *)
Theorem explanation_fallback (query : string) (state : dict) :
  absent_or_empty "filterModel" state = true ->
  absent_or_empty "sortModel" state = true ->
  absent_or_empty "rowGroupColumns" state = true ->
  generate_explanation (VStr query) (VDict state) = Ok ("Applied query: " ++ query).
Proof.
  intros Hfilter Hsort Hgroup.
  rewrite (generate_explanation_blocks (VStr query) (VDict state) [] [] []).
  - reflexivity.
  - now apply check_filters_skip.
  - now apply check_sorting_skip.
  - now apply check_grouping_skip.
Qed.

(** C9.  [generate_explanation] returns a string only if every value of
    [filterModel] is a mapping and every entry of [sortModel] is a mapping
    with the keys [colId] and [sort]; under that shape the filter and the
    sort block do return; and on a [sortModel] entry without [colId] the
    function raises [KeyError] for that key. *)
Theorem explanation_partial :
  (forall (query : value) (state : dict) (s : string),
      generate_explanation query (VDict state) = Ok s ->
      entries_are_mappings state)
  /\ (forall (state : dict) (explanations : list string),
        valid_at "filterModel" valid_filter_model state = true ->
        valid_at "sortModel" valid_sort_model state = true ->
        exists a b,
          check_filters (VDict state) explanations = Ok a
          /\ check_sorting (VDict state) a = Ok b)
  /\ (~ entries_are_mappings no_col_id_patch
      /\ forall query : value,
          generate_explanation query (VDict no_col_id_patch)
          = Raise (KeyError "colId")).
Proof.
  split; [| split].
  - intros query state s Hrun.
    apply generate_explanation_returns in Hrun as (a & b & c & Ha & Hb & _).
    split.
    + intros fm Hfm. rewrite check_filters_dict, Hfm in Ha.
      destruct fm as [| entry fm]; [constructor |].
      exact (filter_loop_returns _ _ _ Ha).
    + intros entries Hentries. rewrite check_sorting_dict, Hentries in Hb.
      destruct entries as [| entry entries]; [constructor |].
      exact (sort_loop_returns _ _ _ Hb).
  - intros state explanations Hfilters Hsorts.
    destruct (check_filters_valid state Hfilters) as (filters & _ & Hcf).
    destruct (check_sorting_valid state Hsorts) as (sorts & _ & Hcs).
    exists (explanations ++ filters)%list, ((explanations ++ filters) ++ sorts)%list.
    split; [apply Hcf | apply Hcs].
  - split.
    + intros [_ Hsorts].
      specialize (Hsorts _ eq_refl).
      inversion Hsorts as [| entry entries Hentry _]. discriminate Hentry.
    + intros query. reflexivity.
Qed.

End ExplanationClaims.

(** The patches of the specification's examples. *)
Example explanation_of_jency_filter :
  generate_explanation (VStr "q") (VDict [("filterModel", jency_filter)])
  = Ok "Filtered from_email contains 'jency'".
Proof. reflexivity. Qed.

Example explanation_of_weight_sort :
  generate_explanation (VStr "q") (VDict [("sortModel", weight_sort)])
  = Ok "Sorted by weight (descending)".
Proof. reflexivity. Qed.

Example explanation_of_transport_groups :
  generate_explanation (VStr "q") (VDict [("rowGroupColumns", transport_groups)])
  = Ok "Grouped by mode_of_transport, origin_country".
Proof. reflexivity. Qed.

Example explanation_of_full_patch :
  generate_explanation (VStr "q") (VDict full_patch)
  = Ok ("Filtered from_email contains 'jency' | Sorted by weight (descending)"
        ++ " | Grouped by mode_of_transport, origin_country").
Proof. reflexivity. Qed.

Example explanation_of_non_string_group :
  generate_explanation (VStr "q") (VDict [("rowGroupColumns", VList [VInt 1])])
  = Raise (TypeError "sequence item 0: expected str instance, int found").
Proof. reflexivity. Qed.

Lemma explanation_fragments_in_order_witness :
  valid_patch full_patch = true
  /\ exists filters sorts,
      Forall2 filter_fragment (filter_entries full_patch) filters
      /\ Forall2 sort_fragment (sort_entries full_patch) sorts
      /\ generate_explanation (VStr "q") (VDict full_patch) =
         Ok (match (filters ++ sorts
                    ++ group_fragments (group_columns full_patch))%list with
             | [] => "Applied query: " ++ py_str (VStr "q")
             | fragments => String.concat " | " fragments
             end).
Proof.
  split; [reflexivity |].
  apply (explanation_fragments_in_order (VStr "q") full_patch). reflexivity.
Defined.

Lemma explanation_partial_witness :
  generate_explanation (VStr "q") (VDict full_patch)
  = Ok ("Filtered from_email contains 'jency' | Sorted by weight (descending)"
        ++ " | Grouped by mode_of_transport, origin_country")
  /\ entries_are_mappings full_patch.
Proof.
  split; [reflexivity |].
  apply (proj1 explanation_partial (VStr "q") full_patch
           ("Filtered from_email contains 'jency' | Sorted by weight (descending)"
            ++ " | Grouped by mode_of_transport, origin_country")).
  reflexivity.
Defined.

Lemma filter_entries_explained_witness :
  exists fragments,
    Forall2 filter_fragment
      [("from_email",
        VDict [("filterType", VStr "text"); ("type", VStr "contains");
               ("filter", VStr "jency")])]
      fragments
    /\ (forall explanations,
          check_filters (VDict [("filterModel", jency_filter)]) explanations
          = Ok (explanations ++ fragments)%list)
    /\ generate_explanation (VStr "q") (VDict [("filterModel", jency_filter)])
       = Ok (String.concat " | " fragments).
Proof.
  destruct (filter_entries_explained (VStr "q") [("filterModel", jency_filter)]
              [("from_email",
                VDict [("filterType", VStr "text"); ("type", VStr "contains");
                       ("filter", VStr "jency")])]
              eq_refl eq_refl)
    as (fragments & Hfragments & Hblock & Hrun).
  exists fragments. split; [exact Hfragments |]. split; [exact Hblock |].
  apply Hrun; [discriminate | reflexivity | reflexivity].
Defined.

Lemma sort_entries_explained_witness :
  exists fragments,
    Forall2 sort_fragment [VDict [("colId", VStr "weight"); ("sort", VStr "desc")]]
      fragments
    /\ (forall explanations,
          check_sorting (VDict [("sortModel", weight_sort)]) explanations
          = Ok (explanations ++ fragments)%list)
    /\ generate_explanation (VStr "q") (VDict [("sortModel", weight_sort)])
       = Ok (String.concat " | " fragments).
Proof.
  destruct (sort_entries_explained (VStr "q") [("sortModel", weight_sort)]
              [VDict [("colId", VStr "weight"); ("sort", VStr "desc")]]
              eq_refl eq_refl)
    as (fragments & Hfragments & Hblock & Hrun).
  exists fragments. split; [exact Hfragments |]. split; [exact Hblock |].
  apply Hrun; [discriminate | reflexivity | reflexivity].
Defined.

Lemma explanation_fallback_witness :
  generate_explanation (VStr "show everything")
    (VDict [("filterModel", VDict []); ("columnState", VList [])])
  = Ok "Applied query: show everything".
Proof.
  apply (explanation_fallback "show everything"
           [("filterModel", VDict []); ("columnState", VList [])]);
    reflexivity.
Defined.

(** ** The request handler *)

Lemma contains_text_here (sub post : string) : contains_text sub (sub ++ post).
Proof. exists EmptyString, post. reflexivity. Qed.

Lemma contains_text_skip (sub pre s : string) :
  contains_text sub s -> contains_text sub (pre ++ s).
Proof.
  intros (a & b & ->). exists (pre ++ a), b. now rewrite append_assoc.
Qed.

Section HandlerFacts.
Context `{Interp} `{Services}.

Lemma py_get_dict (d : dict) (k : string) (default : value) :
  py_get (VDict d) k default = Ok (field d k default).
Proof.
  unfold py_get, field, with_default. now destruct (lookup k d).
Qed.

Lemma truthy_query (data : dict) :
  py_truthy (field data "query" (VStr EmptyString))
  = negb (absent_or_empty "query" data).
Proof.
  unfold field, with_default, absent_or_empty.
  destruct (lookup "query" data) as [v |]; [| reflexivity].
  now rewrite negb_involutive.
Qed.

(** The handler on a request whose body is an object. *)
Lemma ai_query_object (data : dict) :
  ai_query (Ok (VDict data)) =
  if absent_or_empty "query" data then (no_query_response, [])
  else (match after_model (field data "query" (VStr EmptyString))
                          (generate_content (request_prompt data)) with
        | Ok r => r
        | Raise e => except_clauses e
        end,
        [request_prompt data]).
Proof.
  unfold ai_query, ai_query_try, io_bind, lift.
  rewrite !py_get_dict, truthy_query, negb_involutive.
  destruct (absent_or_empty "query" data); [reflexivity |].
  cbv beta iota. unfold model_text, after_model.
  fold (request_prompt data).
  destruct (generate_content (request_prompt data)) as [text | e]; [| reflexivity].
  cbn [bind app]. 
  destruct (json_loads text) as [new_state | e]; [| reflexivity].
  cbn [bind].
  destruct (generate_explanation (field data "query" (VStr EmptyString)) new_state);
    reflexivity.
Qed.



(** The prompt, block by block. *)
Lemma system_prompt_blocks (tab grid_schema current_state user_query : value) :
  exists head tail,
    system_prompt tab grid_schema current_state user_query =
    head ++ tab_description parcels ++ nl
         ++ tab_description emails ++ nl
         ++ tab_description shipments ++ nl
         ++ tab_description attachments ++ nl ++ tail.
Proof.
  unfold system_prompt, tab_description.
  rewrite !concat_cons, concat_nil, app_nil_r, !unlines_app.
  eexists. eexists. reflexivity.
Qed.

End HandlerFacts.

Lemma prefix_split (a s : string) :
  prefix a s = true -> exists post, s = a ++ post.
Proof.
  revert s. induction a as [| c a IH]; intros s Hp.
  - now exists s.
  - destruct s as [| c' s]; [discriminate |].
    simpl in Hp. destruct (ascii_dec c c') as [-> |]; [| discriminate].
    destruct (IH s Hp) as [post ->]. now exists post.
Qed.

Lemma is_infix_sound (sub s : string) :
  is_infix sub s = true -> contains_text sub s.
Proof.
  induction s as [| c s IH]; intros Hs.
  - destruct (prefix sub EmptyString) eqn:Hp.
    + apply prefix_split in Hp as [post ->]. apply contains_text_here.
    + unfold is_infix in Hs. rewrite Hp in Hs. discriminate.
  - destruct (prefix sub (String c s)) eqn:Hp.
    + apply prefix_split in Hp as [post ->]. apply contains_text_here.
    + cbn [is_infix] in Hs. rewrite Hp in Hs.
      apply (contains_text_skip sub (String c EmptyString) s). now apply IH.
Qed.

Section HandlerClaims.
Context `{Interp} `{Services}.

(** C1, as amended.  A request whose body is an object in which [query] is
    absent or empty gets the answer 400 with [success] false and the error
    [No query provided], and no prompt is sent to the external model. *)
Theorem ai_query_without_query (data : dict) :
  absent_or_empty "query" data = true ->
  ai_query (Ok (VDict data))
  = ({| status := 400;
        body := [("success", VBool false); ("error", VStr "No query provided")] |},
     []).
Proof.
  intros Hquery. now rewrite ai_query_object, Hquery.
Qed.

(** C2, as amended.  Whatever the [tab] value, the prompt names it on the
    line [CURRENT TAB: ] and holds the column descriptions of all four
    tabs. *)
Theorem prompt_describes_every_tab (tab grid_schema current_state user_query : value) :
  contains_text ("CURRENT TAB: " ++ py_str tab ++ nl)
    (system_prompt tab grid_schema current_state user_query)
  /\ forall t : Tab,
      contains_text (tab_description t)
        (system_prompt tab grid_schema current_state user_query).
Proof.
  split.
  - exists (prompt_intro ++ nl ++ nl). eexists.
    rewrite !append_assoc. reflexivity.
  - intros t.
    destruct (system_prompt_blocks tab grid_schema current_state user_query)
      as (head & tail & ->).
    destruct t.
    + do 3 apply contains_text_skip. apply contains_text_here.
    + apply contains_text_skip. apply contains_text_here.
    + do 5 apply contains_text_skip. apply contains_text_here.
    + do 7 apply contains_text_skip. apply contains_text_here.
Qed.

(** C3, as amended.  When the query is not empty and the external model
    call raises an error that is not a JSON decoding error, the answer is
    500 with [success] false and an [error] field equal to the text of the
    exception, and it has no [newState] field; one prompt was sent. *)
Theorem ai_query_provider_error (data : dict) (e : exn) :
  absent_or_empty "query" data = false ->
  generate_content (request_prompt data) = Raise e ->
  is_json_decode_error e = false ->
  ai_query (Ok (VDict data))
  = ({| status := 500;
        body := [("success", VBool false); ("error", VStr (exn_str e))] |},
     [request_prompt data])
  /\ lookup "newState" (body (fst (ai_query (Ok (VDict data))))) = None.
Proof.
  intros Hquery Hcall Hclass.
  rewrite ai_query_object, Hquery, Hcall. cbn [after_model bind].
  destruct e; try discriminate; now split.
Qed.

(** C4, as amended.  When the query is not empty and the parser raises a
    JSON decoding error on the reply of the external model, the answer is
    500 with [success] false and the error
    [Invalid JSON response from AI: ] followed by the parser's detail, and
    it has no [newState] field. *)
Theorem ai_query_invalid_json (data : dict) (text detail : string) :
  absent_or_empty "query" data = false ->
  generate_content (request_prompt data) = Ok text ->
  json_loads text = Raise (JSONDecodeError detail) ->
  ai_query (Ok (VDict data))
  = ({| status := 500;
        body := [("success", VBool false);
                 ("error", VStr ("Invalid JSON response from AI: " ++ detail))] |},
     [request_prompt data])
  /\ lookup "newState" (body (fst (ai_query (Ok (VDict data))))) = None.
Proof.
  intros Hquery Hcall Hparse.
  rewrite ai_query_object, Hquery, Hcall. cbn [after_model bind].
  rewrite Hparse. now split.
Qed.


End HandlerClaims.

(** A run that succeeds: the model answers the empty patch. *)
Example ai_query_empty_patch :
  @ai_query plain_interp (canned_services (Ok "{}")) (Ok (VDict truck_request))
  = ({| status := 200;
        body := [("success", VBool true);
                 ("newState", VDict []);
                 ("explanation", VStr "Applied query: Show me all TRUCK parcels")] |},
     [@request_prompt plain_interp (canned_services (Ok "{}")) truck_request]).
Proof. reflexivity. Qed.

(** A reply whose sort entry has no [colId]: the [KeyError] of the
    explanation generator is answered 500 with the quoted key. *)
Example ai_query_reply_without_col_id :
  @ai_query plain_interp
    (scripted_services (Ok "reply") (fun _ => Ok (VDict no_col_id_patch)))
    (Ok (VDict truck_request))
  = ({| status := 500;
        body := [("success", VBool false); ("error", VStr "'colId'")] |},
     [@request_prompt plain_interp
        (scripted_services (Ok "reply") (fun _ => Ok (VDict no_col_id_patch)))
        truck_request]).
Proof. reflexivity. Qed.

(** A body that is not an object is answered 500, with no prompt sent. *)
Example ai_query_body_not_an_object :
  @ai_query plain_interp (canned_services (Ok "{}")) (Ok (VList []))
  = ({| status := 500;
        body := [("success", VBool false);
                 ("error", VStr "'list' object has no attribute 'get'")] |},
     []).
Proof. reflexivity. Qed.

(** C1 fails on a query of one space: the query is not empty, the prompt is
    sent and the answer is 200. *)
Lemma whitespace_query_reaches_model :
  whitespace_only " " = true
  /\ @ai_query plain_interp (canned_services (Ok "{}")) (Ok (VDict blank_query_request))
     = ({| status := 200;
           body := [("success", VBool true);
                    ("newState", VDict []);
                    ("explanation", VStr "Applied query:  ")] |},
        [@request_prompt plain_interp (canned_services (Ok "{}")) blank_query_request])
  /\ @ai_query plain_interp (canned_services (Ok "{}")) (Ok (VDict blank_query_request))
     <> ({| status := 400;
            body := [("success", VBool false); ("error", VStr "No query provided")] |},
         []).
Proof.
  split; [reflexivity |]. split; [reflexivity |].
  intros Hrun. vm_compute in Hrun. discriminate Hrun.
Qed.

Lemma ai_query_without_query_witness :
  absent_or_empty "query" [("tab", VStr "emails")] = true
  /\ @ai_query plain_interp (canned_services (Ok "{}")) (Ok (VDict [("tab", VStr "emails")]))
     = ({| status := 400;
           body := [("success", VBool false); ("error", VStr "No query provided")] |},
        []).
Proof.
  split; [reflexivity |].
  apply (@ai_query_without_query plain_interp (canned_services (Ok "{}"))
           [("tab", VStr "emails")]).
  reflexivity.
Defined.

(** C2 fails on the tab [emails]: the prompt holds the descriptions of the
    three other tabs as well. *)
Lemma emails_prompt_describes_other_tabs :
  contains_text (tab_description parcels)
    (@request_prompt plain_interp (canned_services (Ok "{}")) jency_request)
  /\ contains_text (tab_description shipments)
       (@request_prompt plain_interp (canned_services (Ok "{}")) jency_request)
  /\ contains_text (tab_description attachments)
       (@request_prompt plain_interp (canned_services (Ok "{}")) jency_request).
Proof.
  repeat split; apply is_infix_sound; vm_compute; reflexivity.
Qed.

(** C3 fails on an exception without a message: the [error] field is the
    empty string. *)
Lemma provider_error_without_message :
  @ai_query plain_interp (canned_services (Raise (OtherException EmptyString)))
    (Ok (VDict truck_request))
  = ({| status := 500;
        body := [("success", VBool false); ("error", VStr EmptyString)] |},
     [@request_prompt plain_interp (canned_services (Raise (OtherException EmptyString)))
        truck_request]).
Proof. reflexivity. Qed.

Lemma ai_query_provider_error_witness :
  @ai_query plain_interp
    (canned_services (Raise (OtherException "503 Service Unavailable")))
    (Ok (VDict truck_request))
  = ({| status := 500;
        body := [("success", VBool false);
                 ("error", VStr "503 Service Unavailable")] |},
     [@request_prompt plain_interp
        (canned_services (Raise (OtherException "503 Service Unavailable")))
        truck_request]).
Proof.
  apply (@ai_query_provider_error plain_interp
           (canned_services (Raise (OtherException "503 Service Unavailable")))
           truck_request (OtherException "503 Service Unavailable"));
    reflexivity.
Defined.

Lemma ai_query_invalid_json_witness :
  @ai_query plain_interp (canned_services (Ok "Here is the new state"))
    (Ok (VDict truck_request))
  = ({| status := 500;
        body := [("success", VBool false);
                 ("error",
                  VStr ("Invalid JSON response from AI: "
                        ++ "Expecting value: line 1 column 1 (char 0)"))] |},
     [@request_prompt plain_interp (canned_services (Ok "Here is the new state"))
        truck_request]).
Proof.
  apply (@ai_query_invalid_json plain_interp
           (canned_services (Ok "Here is the new state"))
           truck_request "Here is the new state"
           "Expecting value: line 1 column 1 (char 0)");
    reflexivity.
Defined.


(** ** Further facts about the explanation generator *)

Lemma bind_ok {A B : Type} (c : res A) (k : A -> res B) (b : B) :
  bind c k = Ok b -> exists a, c = Ok a /\ k a = Ok b.
Proof.
  destruct c as [a | e]; simpl; [| discriminate].
  intros Hk. now exists a.
Qed.

Lemma bind_raise {A B : Type} (c : res A) (k : A -> res B) (e : exn) :
  bind c k = Raise e -> c = Raise e \/ exists a, c = Ok a /\ k a = Raise e.
Proof.
  destruct c as [a | e']; simpl.
  - intros Hk. right. now exists a.
  - intros [= ->]. now left.
Qed.

Lemma prefix_here (p z : string) : prefix p (p ++ z) = true.
Proof.
  induction p as [| c p IH]; simpl.
  - now destruct z.
  - destruct (ascii_dec c c) as [_ | Hc]; [exact IH | now elim Hc].
Qed.

Lemma prefix_grows (p x y : string) :
  prefix p x = true -> prefix p (x ++ y) = true.
Proof.
  intros Hp. apply prefix_split in Hp as [post ->].
  rewrite append_assoc. apply prefix_here.
Qed.

Lemma has_label_grows (x y : string) :
  has_label x = true -> has_label (x ++ y) = true.
Proof.
  unfold has_label. rewrite !orb_true_iff.
  intros [[[Hx | Hx] | Hx] | Hx]; apply (prefix_grows _ _ y) in Hx; tauto.
Qed.

Lemma has_label_applied (z : string) : has_label ("Applied query: " ++ z) = true.
Proof.
  unfold has_label. now rewrite (prefix_here "Applied query: " z).
Qed.

Lemma has_label_filtered (z : string) : has_label ("Filtered " ++ z) = true.
Proof.
  unfold has_label. rewrite (prefix_here "Filtered " z).
  now rewrite orb_true_r.
Qed.

Lemma has_label_sorted (z : string) : has_label ("Sorted by " ++ z) = true.
Proof.
  unfold has_label. rewrite (prefix_here "Sorted by " z).
  now rewrite orb_true_r.
Qed.

Lemma has_label_grouped (z : string) : has_label ("Grouped by " ++ z) = true.
Proof.
  unfold has_label. rewrite (prefix_here "Grouped by " z).
  now rewrite orb_true_r.
Qed.

Lemma has_label_concat (x : string) (xs : list string) :
  has_label x = true -> has_label (String.concat " | " (x :: xs)) = true.
Proof.
  intros Hx. simpl. destruct xs; [exact Hx | now apply has_label_grows].
Qed.

Lemma chars_nil (s : string) : chars s = [] -> s = EmptyString.
Proof. now destruct s. Qed.

Section Growth.
Context `{Interp}.

Lemma present_and_truthy_true (key : string) (state : value) :
  present_and_truthy key state = Ok true ->
  exists v, py_getitem state key = Ok v /\ py_truthy v = true.
Proof.
  unfold present_and_truthy. intros Hguard.
  apply bind_ok in Hguard as ([|] & _ & Hguard); [| discriminate].
  apply bind_ok in Hguard as (v & Hv & Htruthy).
  exists v. split; [exact Hv | now injection Htruthy].
Qed.

(** The loops only append, one labelled fragment per entry. *)
Lemma filter_loop_grows (items : dict) (e a : list string) :
  filter_loop items e = Ok a ->
  exists l,
    a = (e ++ l)%list
    /\ Forall (fun s => has_label s = true) l
    /\ length l = length items.
Proof.
  revert e. induction items as [| [col filter_def] items IH]; intros e Hrun.
  - simpl in Hrun. injection Hrun as <-. exists [].
    now rewrite app_nil_r.
  - simpl in Hrun.
    destruct filter_def as [| | | | | | d]; try discriminate.
    unfold py_get in Hrun.
    destruct (lookup "filter" d), (lookup "type" d); simpl in Hrun;
      apply IH in Hrun as (l & -> & Hl & Hlen);
      unfold append; rewrite <- app_assoc;
      (eexists (_ :: l); split; [reflexivity |]);
      (split; [constructor; [exact (has_label_filtered _) | exact Hl]
              | simpl; now rewrite Hlen]).
Qed.

Lemma sort_loop_grows (entries : list value) (e a : list string) :
  sort_loop entries e = Ok a ->
  exists l,
    a = (e ++ l)%list
    /\ Forall (fun s => has_label s = true) l
    /\ length l = length entries.
Proof.
  revert e. induction entries as [| entry entries IH]; intros e Hrun.
  - simpl in Hrun. injection Hrun as <-. exists [].
    now rewrite app_nil_r.
  - simpl in Hrun.
    apply bind_ok in Hrun as (col & _ & Hrun).
    apply bind_ok in Hrun as (order & _ & Hrun).
    apply IH in Hrun as (l & -> & Hl & Hlen).
    unfold append. rewrite <- app_assoc.
    eexists (_ :: l). split; [reflexivity |].
    split; [constructor; [exact (has_label_sorted _) | exact Hl]
           | simpl; now rewrite Hlen].
Qed.

Lemma check_filters_grows (state : value) (e a : list string) :
  check_filters state e = Ok a ->
  exists l,
    a = (e ++ l)%list
    /\ Forall (fun s => has_label s = true) l
    /\ (present_and_truthy "filterModel" state = Ok true -> l <> []).
Proof.
  unfold check_filters. intros Hrun.
  apply bind_ok in Hrun as ([|] & Hguard & Hrun).
  - apply bind_ok in Hrun as (filters & Hfilters & Hrun).
    apply bind_ok in Hrun as (items & Hitems & Hrun).
    apply filter_loop_grows in Hrun as (l & -> & Hl & Hlen).
    exists l. split; [reflexivity |]. split; [exact Hl |].
    intros _ ->.
    apply present_and_truthy_true in Hguard as (v & Hv & Htruthy).
    rewrite Hfilters in Hv. injection Hv as <-.
    destruct filters; try discriminate.
    simpl in Hitems. injection Hitems as ->.
    now destruct items.
  - injection Hrun as <-. exists [].
    rewrite app_nil_r. split; [reflexivity |]. split; [constructor |].
    rewrite Hguard. discriminate.
Qed.

Lemma check_sorting_grows (state : value) (e a : list string) :
  check_sorting state e = Ok a ->
  exists l,
    a = (e ++ l)%list
    /\ Forall (fun s => has_label s = true) l
    /\ (present_and_truthy "sortModel" state = Ok true -> l <> []).
Proof.
  unfold check_sorting. intros Hrun.
  apply bind_ok in Hrun as ([|] & Hguard & Hrun).
  - apply bind_ok in Hrun as (sort_model & Hmodel & Hrun).
    apply bind_ok in Hrun as (entries & Hentries & Hrun).
    apply sort_loop_grows in Hrun as (l & -> & Hl & Hlen).
    exists l. split; [reflexivity |]. split; [exact Hl |].
    intros _ ->.
    apply present_and_truthy_true in Hguard as (v & Hv & Htruthy).
    rewrite Hmodel in Hv. injection Hv as <-.
    destruct sort_model as [| | | | s | l | d]; try discriminate;
      simpl in Hentries; injection Hentries as <-.
    + destruct s; discriminate.
    + destruct l; discriminate.
    + destruct d; discriminate.
  - injection Hrun as <-. exists [].
    rewrite app_nil_r. split; [reflexivity |]. split; [constructor |].
    rewrite Hguard. discriminate.
Qed.

Lemma check_grouping_grows (state : value) (e a : list string) :
  check_grouping state e = Ok a ->
  exists l,
    a = (e ++ l)%list
    /\ Forall (fun s => has_label s = true) l
    /\ (present_and_truthy "rowGroupColumns" state = Ok true -> l <> []).
Proof.
  unfold check_grouping. intros Hrun.
  apply bind_ok in Hrun as ([|] & Hguard & Hrun).
  - apply bind_ok in Hrun as (columns & _ & Hrun).
    apply bind_ok in Hrun as (cols & _ & Hrun).
    injection Hrun as <-. unfold append.
    eexists [_]. split; [reflexivity |].
    split; [constructor; [exact (has_label_grouped _) | constructor] | discriminate].
  - injection Hrun as <-. exists [].
    rewrite app_nil_r. split; [reflexivity |]. split; [constructor |].
    rewrite Hguard. discriminate.
Qed.

End Growth.

Ltac raised_directly H :=
  simpl in H; try discriminate H; injection H as <-; reflexivity.

Lemma py_contains_raises (k : string) (c : value) (e : exn) :
  py_contains k c = Raise e -> raised_by_interpreter e = true.
Proof. intros Hr. destruct c; raised_directly Hr. Qed.

Lemma py_getitem_raises (c : value) (k : string) (e : exn) :
  py_getitem c k = Raise e -> raised_by_interpreter e = true.
Proof.
  intros Hr. destruct c as [| | | | | | d]; try raised_directly Hr.
  simpl in Hr. destruct (lookup k d); raised_directly Hr.
Qed.

Lemma py_get_raises (obj : value) (k : string) (default : value) (e : exn) :
  py_get obj k default = Raise e -> raised_by_interpreter e = true.
Proof.
  intros Hr. destruct obj as [| | | | | | d]; try raised_directly Hr.
  simpl in Hr. destruct (lookup k d); discriminate.
Qed.

Lemma py_items_raises (obj : value) (e : exn) :
  py_items obj = Raise e -> raised_by_interpreter e = true.
Proof. intros Hr. destruct obj; raised_directly Hr. Qed.

Lemma py_iter_raises (obj : value) (e : exn) :
  py_iter obj = Raise e -> raised_by_interpreter e = true.
Proof. intros Hr. destruct obj; raised_directly Hr. Qed.

Lemma join_items_raises (l : list value) (i : nat) (e : exn) :
  join_items i l = Raise e -> raised_by_interpreter e = true.
Proof.
  revert i. induction l as [| v l IH]; intros i Hr; [discriminate |].
  destruct v; try raised_directly Hr.
  simpl in Hr. apply bind_raise in Hr as [Hr | (rest & _ & Hr)];
    [now apply IH in Hr | discriminate].
Qed.

Lemma py_join_raises (sep : string) (obj : value) (e : exn) :
  py_join sep obj = Raise e -> raised_by_interpreter e = true.
Proof.
  intros Hr. destruct obj as [| | | | | l |]; try raised_directly Hr.
  simpl in Hr. apply bind_raise in Hr as [Hr | (items & _ & Hr)];
    [now apply join_items_raises in Hr | discriminate].
Qed.

Section ExplanationErrors.
Context `{Interp}.

Lemma present_and_truthy_raises (key : string) (state : value) (e : exn) :
  present_and_truthy key state = Raise e -> raised_by_interpreter e = true.
Proof.
  unfold present_and_truthy. intros Hr.
  apply bind_raise in Hr as [Hr | ([|] & _ & Hr)].
  - now apply py_contains_raises in Hr.
  - apply bind_raise in Hr as [Hr | (v & _ & Hr)];
      [now apply py_getitem_raises in Hr | discriminate].
  - discriminate.
Qed.

Lemma filter_loop_raises (items : dict) (explanations : list string) (e : exn) :
  filter_loop items explanations = Raise e -> raised_by_interpreter e = true.
Proof.
  revert explanations.
  induction items as [| [col filter_def] items IH]; intros explanations Hr;
    [discriminate |].
  simpl in Hr.
  apply bind_raise in Hr as [Hr | (fv & _ & Hr)];
    [now apply py_get_raises in Hr |].
  apply bind_raise in Hr as [Hr | (ty & _ & Hr)];
    [now apply py_get_raises in Hr |].
  now apply IH in Hr.
Qed.

Lemma sort_loop_raises (entries : list value) (explanations : list string) (e : exn) :
  sort_loop entries explanations = Raise e -> raised_by_interpreter e = true.
Proof.
  revert explanations.
  induction entries as [| entry entries IH]; intros explanations Hr;
    [discriminate |].
  simpl in Hr.
  apply bind_raise in Hr as [Hr | (col & _ & Hr)];
    [now apply py_getitem_raises in Hr |].
  apply bind_raise in Hr as [Hr | (order & _ & Hr)];
    [now apply py_getitem_raises in Hr |].
  now apply IH in Hr.
Qed.

Lemma check_filters_raises (state : value) (explanations : list string) (e : exn) :
  check_filters state explanations = Raise e -> raised_by_interpreter e = true.
Proof.
  unfold check_filters. intros Hr.
  apply bind_raise in Hr as [Hr | ([|] & _ & Hr)];
    [now apply present_and_truthy_raises in Hr | | discriminate].
  apply bind_raise in Hr as [Hr | (filters & _ & Hr)];
    [now apply py_getitem_raises in Hr |].
  apply bind_raise in Hr as [Hr | (items & _ & Hr)];
    [now apply py_items_raises in Hr | now apply filter_loop_raises in Hr].
Qed.

Lemma check_sorting_raises (state : value) (explanations : list string) (e : exn) :
  check_sorting state explanations = Raise e -> raised_by_interpreter e = true.
Proof.
  unfold check_sorting. intros Hr.
  apply bind_raise in Hr as [Hr | ([|] & _ & Hr)];
    [now apply present_and_truthy_raises in Hr | | discriminate].
  apply bind_raise in Hr as [Hr | (sort_model & _ & Hr)];
    [now apply py_getitem_raises in Hr |].
  apply bind_raise in Hr as [Hr | (entries & _ & Hr)];
    [now apply py_iter_raises in Hr | now apply sort_loop_raises in Hr].
Qed.

Lemma check_grouping_raises (state : value) (explanations : list string) (e : exn) :
  check_grouping state explanations = Raise e -> raised_by_interpreter e = true.
Proof.
  unfold check_grouping. intros Hr.
  apply bind_raise in Hr as [Hr | ([|] & _ & Hr)];
    [now apply present_and_truthy_raises in Hr | | discriminate].
  apply bind_raise in Hr as [Hr | (columns & _ & Hr)];
    [now apply py_getitem_raises in Hr |].
  apply bind_raise in Hr as [Hr | (cols & _ & Hr)];
    [now apply py_join_raises in Hr | discriminate].
Qed.

(** What [generate_explanation] raises, seen from a caller. *)
Lemma generate_explanation_raises (query state : value) (e : exn) :
  generate_explanation query state = Raise e -> raised_by_interpreter e = true.
Proof.
  unfold generate_explanation. intros Hr.
  apply bind_raise in Hr as [Hr | (a & _ & Hr)];
    [now apply check_filters_raises in Hr |].
  apply bind_raise in Hr as [Hr | (b & _ & Hr)];
    [now apply check_sorting_raises in Hr |].
  apply bind_raise in Hr as [Hr | (c & _ & Hr)];
    [now apply check_grouping_raises in Hr |].
  destruct c; discriminate.
Qed.

(** What [generate_explanation] returns, seen from a caller. *)
Lemma generate_explanation_labelled (query state : value) (s : string) :
  generate_explanation query state = Ok s -> has_label s = true.
Proof.
  intros Hrun.
  destruct (generate_explanation_returns _ _ _ Hrun) as (a & b & c & Ha & Hb & Hc).
  rewrite (generate_explanation_blocks _ _ _ _ _ Ha Hb Hc) in Hrun.
  injection Hrun as <-.
  apply check_filters_grows in Ha as (la & -> & Hla & _).
  apply check_sorting_grows in Hb as (lb & -> & Hlb & _).
  apply check_grouping_grows in Hc as (lc & -> & Hlc & _).
  assert (Hall : Forall (fun s => has_label s = true) ((([] ++ la) ++ lb) ++ lc)%list)
    by (rewrite !Forall_app; repeat split; trivial).
  destruct ((([] ++ la) ++ lb) ++ lc)%list as [| x xs].
  - apply has_label_applied.
  - inversion Hall as [| ? ? Hx _]. now apply has_label_concat.
Qed.

End ExplanationErrors.

Lemma join_items_first_other (pre : list string) (v : value) (rest : list value) (i : nat) :
  is_str v = false ->
  join_items i (map VStr pre ++ v :: rest)%list
  = Raise (TypeError ("sequence item " ++ decimal (i + length pre)
                      ++ ": expected str instance, " ++ type_name v ++ " found")).
Proof.
  intros Hv. revert i. induction pre as [| s pre IH]; intros i.
  - rewrite Nat.add_0_r. destruct v; try discriminate; reflexivity.
  - cbn [map app join_items length]. rewrite (IH (S i)).
    now rewrite Nat.add_succ_r.
Qed.

Lemma truthy_dict_app (good : dict) (entry : string * value) (rest : dict) :
  py_truthy (VDict (good ++ entry :: rest)%list) = true.
Proof. now destruct good. Qed.

Lemma truthy_list_app (good : list value) (entry : value) (rest : list value) :
  py_truthy (VList (good ++ entry :: rest)%list) = true.
Proof. now destruct good. Qed.

Section FirstOffender.
Context `{Interp}.

(** The loops over a prefix of well-formed entries. *)
Lemma filter_loop_prefix (good : dict) :
  forallb (fun entry => is_dict (snd entry)) good = true ->
  exists fragments,
    forall (rest : dict) (explanations : list string),
      filter_loop (good ++ rest)%list explanations
      = filter_loop rest (explanations ++ fragments)%list.
Proof.
  induction good as [| [col filter_def] good IH]; intros Hgood.
  - exists []. intros rest explanations. now rewrite app_nil_r.
  - simpl in Hgood. apply andb_prop in Hgood as [Hd Hgood].
    destruct filter_def as [| | | | | | d]; try discriminate.
    destruct (IH Hgood) as (fragments & Hloop).
    exists (("Filtered " ++ col ++ " "
             ++ py_str (with_default (lookup "type" d) (VStr "contains"))
             ++ " '"
             ++ py_str (with_default (lookup "filter" d) (VStr EmptyString))
             ++ "'") :: fragments).
    intros rest explanations.
    cbn [app filter_loop]. unfold py_get.
    destruct (lookup "filter" d), (lookup "type" d); cbn [bind];
      rewrite Hloop; unfold append; rewrite <- app_assoc; reflexivity.
Qed.

Lemma sort_loop_prefix (good : list value) :
  forallb valid_sort_entry good = true ->
  exists fragments,
    forall (rest : list value) (explanations : list string),
      sort_loop (good ++ rest)%list explanations
      = sort_loop rest (explanations ++ fragments)%list.
Proof.
  induction good as [| entry good IH]; intros Hgood.
  - exists []. intros rest explanations. now rewrite app_nil_r.
  - simpl in Hgood. apply andb_prop in Hgood as [Hentry Hgood].
    destruct entry as [| | | | | | d]; try discriminate.
    simpl in Hentry. apply andb_prop in Hentry as [Hcol Hsort].
    apply lookup_has_key in Hcol as [col Hcol].
    apply lookup_has_key in Hsort as [order Hsort].
    destruct (IH Hgood) as (fragments & Hloop).
    eexists (_ :: fragments). intros rest explanations.
    cbn [app sort_loop]. unfold py_getitem. rewrite Hcol, Hsort. cbn [bind].
    rewrite Hloop. unfold append. rewrite <- app_assoc. reflexivity.
Qed.

End FirstOffender.

(** ** Further properties of the explanation generator *)

Section ExplanationExtras.
Context `{Interp}.

(** X1.  On every query and every state, a mapping or not,
    [generate_explanation] either returns a text that starts with one of
    [Applied query: ], [Filtered ], [Sorted by ], [Grouped by ] (so never the
    empty text), or raises a [KeyError], a [TypeError] or an
    [AttributeError]. *)
Theorem explanation_outcomes (query state : value) :
  match generate_explanation query state with
  | Ok s => has_label s = true /\ s <> EmptyString
  | Raise e => raised_by_interpreter e = true
  end.
Proof.
  destruct (generate_explanation query state) as [s | e] eqn:Hrun.
  - apply generate_explanation_labelled in Hrun.
    split; [exact Hrun |]. intros ->. discriminate Hrun.
  - now apply generate_explanation_raises in Hrun.
Qed.

(** X2.  The explanation of a patch depends on the values of [filterModel],
    [sortModel] and [rowGroupColumns] only: two patches that agree on these
    three keys, whatever their other keys and the order of their keys, have
    the same explanation or raise the same error. *)
Theorem explanation_reads_three_keys (query : value) (state1 state2 : dict) :
  (forall key, In key explained_keys -> lookup key state1 = lookup key state2) ->
  generate_explanation query (VDict state1) = generate_explanation query (VDict state2).
Proof.
  intros Hkeys.
  assert (Hf : lookup "filterModel" state1 = lookup "filterModel" state2)
    by (apply Hkeys; simpl; tauto).
  assert (Hs : lookup "sortModel" state1 = lookup "sortModel" state2)
    by (apply Hkeys; simpl; tauto).
  assert (Hg : lookup "rowGroupColumns" state1 = lookup "rowGroupColumns" state2)
    by (apply Hkeys; simpl; tauto).
  unfold generate_explanation.
  rewrite (check_filters_dict state1), (check_filters_dict state2), Hf.
  destruct (match lookup "filterModel" state2 with
            | Some v =>
                if py_truthy v then items <- py_items v ;; filter_loop items []
                else Ok []
            | None => Ok []
            end) as [a | e]; [| reflexivity].
  cbn [bind].
  rewrite (check_sorting_dict state1), (check_sorting_dict state2), Hs.
  destruct (match lookup "sortModel" state2 with
            | Some v =>
                if py_truthy v then entries <- py_iter v ;; sort_loop entries a
                else Ok a
            | None => Ok a
            end) as [b | e]; [| reflexivity].
  cbn [bind].
  now rewrite (check_grouping_dict state1), (check_grouping_dict state2), Hg.
Qed.

(** X3.  When at least one of [filterModel], [sortModel], [rowGroupColumns]
    is present and not empty, the query plays no part: any two queries get
    the same explanation, or the same error. *)
Theorem explanation_ignores_query (query1 query2 : value) (state : dict) :
  absent_or_empty "filterModel" state
  && absent_or_empty "sortModel" state
  && absent_or_empty "rowGroupColumns" state = false ->
  generate_explanation query1 (VDict state) = generate_explanation query2 (VDict state).
Proof.
  intros Hsome. unfold generate_explanation.
  destruct (check_filters (VDict state) []) as [a | e] eqn:Ha; [| reflexivity].
  cbn [bind].
  destruct (check_sorting (VDict state) a) as [b | e] eqn:Hb; [| reflexivity].
  cbn [bind].
  destruct (check_grouping (VDict state) b) as [c | e] eqn:Hc; [| reflexivity].
  cbn [bind].
  destruct c as [| x c]; [| reflexivity].
  exfalso.
  apply check_filters_grows in Ha as (la & -> & _ & Hla).
  apply check_sorting_grows in Hb as (lb & -> & _ & Hlb).
  apply check_grouping_grows in Hc as (lc & Hnil & _ & Hlc).
  rewrite !present_and_truthy_dict in *.
  symmetry in Hnil. apply app_eq_nil in Hnil as [Hnil ->].
  apply app_eq_nil in Hnil as [Hnil ->].
  apply app_eq_nil in Hnil as [_ ->].
  destruct (absent_or_empty "filterModel" state); [| now apply Hla].
  destruct (absent_or_empty "sortModel" state); [| now apply Hlb].
  destruct (absent_or_empty "rowGroupColumns" state); [discriminate | now apply Hlc].
Qed.

(** X4.  On a state that is not a mapping: a list or a string that mentions
    none of the three keys gets the fallback text; a list or a string that
    mentions one of them, and every null, boolean or number, raises a
    [TypeError]. *)
Theorem explanation_of_non_object (query state : value) :
  is_dict state = false ->
  generate_explanation query state =
  match state with
  | VList _ =>
      if mentions_explained_key state
      then Raise (TypeError "list indices must be integers or slices, not str")
      else Ok ("Applied query: " ++ py_str query)
  | VStr _ =>
      if mentions_explained_key state
      then Raise (TypeError "string indices must be integers, not 'str'")
      else Ok ("Applied query: " ++ py_str query)
  | _ => Raise (TypeError ("argument of type '" ++ type_name state ++ "' is not iterable"))
  end.
Proof.
  intros Hstate.
  destruct state as [| b | z | f | s | l | d]; try reflexivity; [| | discriminate].
  - unfold generate_explanation, check_filters, check_sorting, check_grouping,
      present_and_truthy, mentions_explained_key, explained_keys.
    cbn [py_contains existsb bind].
    destruct (is_infix "filterModel" s); [reflexivity |].
    cbn [bind orb].
    destruct (is_infix "sortModel" s); [reflexivity |].
    cbn [bind orb].
    destruct (is_infix "rowGroupColumns" s); reflexivity.
  - unfold generate_explanation, check_filters, check_sorting, check_grouping,
      present_and_truthy, mentions_explained_key, explained_keys.
    cbn [py_contains existsb bind].
    destruct (existsb (fun v => py_eq_str v "filterModel") l); [reflexivity |].
    cbn [bind orb].
    destruct (existsb (fun v => py_eq_str v "sortModel") l); [reflexivity |].
    cbn [bind orb].
    destruct (existsb (fun v => py_eq_str v "rowGroupColumns") l); reflexivity.
Qed.

End ExplanationExtras.

Section ExplanationFailures.
Context `{Interp}.

(** X5.  When the first descriptor of [filterModel] that is not a mapping is
    the value [v], the explanation fails with the [AttributeError] that
    names the type of [v]; the fragments of the entries before it are
    lost. *)
Theorem filter_descriptor_not_mapping
    (query : value) (state good rest : dict) (col : string) (v : value) :
  lookup "filterModel" state = Some (VDict (good ++ (col, v) :: rest)%list) ->
  forallb (fun entry => is_dict (snd entry)) good = true ->
  is_dict v = false ->
  generate_explanation query (VDict state)
  = Raise (AttributeError ("'" ++ type_name v ++ "' object has no attribute 'get'")).
Proof.
  intros Hlookup Hgood Hv.
  destruct (filter_loop_prefix good Hgood) as (fragments & Hloop).
  unfold generate_explanation.
  rewrite check_filters_dict, Hlookup, truthy_dict_app.
  cbn [py_items bind]. rewrite Hloop. cbn [filter_loop].
  destruct v; try discriminate; reflexivity.
Qed.

(** X6.  When the filters are well formed and the first entry of
    [sortModel] that lacks a key is a mapping, the explanation fails with a
    [KeyError]: for [colId] when that key is missing, for [sort] when only
    that one is. *)
Theorem sort_entry_missing_key
    (query : value) (state : dict) (good rest : list value) (d : dict) :
  valid_at "filterModel" valid_filter_model state = true ->
  lookup "sortModel" state = Some (VList (good ++ VDict d :: rest)%list) ->
  forallb valid_sort_entry good = true ->
  valid_sort_entry (VDict d) = false ->
  generate_explanation query (VDict state)
  = Raise (KeyError (if has_key "colId" d then "sort" else "colId")).
Proof.
  intros Hfilters Hlookup Hgood Hd.
  destruct (check_filters_valid state Hfilters) as (filters & _ & Hcf).
  destruct (sort_loop_prefix good Hgood) as (fragments & Hloop).
  unfold generate_explanation.
  rewrite (Hcf []). cbn [bind].
  rewrite check_sorting_dict, Hlookup, truthy_list_app.
  cbn [py_iter bind]. rewrite Hloop. cbn [sort_loop py_getitem].
  unfold valid_sort_entry, has_key in *.
  destruct (lookup "colId" d); [| reflexivity].
  destruct (lookup "sort" d); [discriminate | reflexivity].
Qed.

(** X7.  When the filters and the sorts are well formed and the first
    element of the [rowGroupColumns] list that is not a string stands at
    position [n], the explanation fails with the [TypeError] of [str.join]
    for item [n]; the filter and sort fragments are lost. *)
Theorem group_column_not_string
    (query : value) (state : dict) (pre : list string) (v : value) (rest : list value) :
  valid_at "filterModel" valid_filter_model state = true ->
  valid_at "sortModel" valid_sort_model state = true ->
  lookup "rowGroupColumns" state = Some (VList (map VStr pre ++ v :: rest)%list) ->
  is_str v = false ->
  generate_explanation query (VDict state)
  = Raise (TypeError ("sequence item " ++ decimal (length pre)
                      ++ ": expected str instance, " ++ type_name v ++ " found")).
Proof.
  intros Hfilters Hsorts Hlookup Hv.
  destruct (check_filters_valid state Hfilters) as (filters & _ & Hcf).
  destruct (check_sorting_valid state Hsorts) as (sorts & _ & Hcs).
  unfold generate_explanation.
  rewrite (Hcf []). cbn [bind]. rewrite Hcs. cbn [bind].
  rewrite check_grouping_dict, Hlookup, truthy_list_app.
  unfold py_join. rewrite (join_items_first_other pre v rest 0 Hv).
  reflexivity.
Qed.

End ExplanationFailures.

Lemma explanation_reads_three_keys_witness :
  generate_explanation (VStr "q") (VDict full_patch)
  = generate_explanation (VStr "q") (VDict shuffled_patch).
Proof.
  apply (explanation_reads_three_keys (VStr "q") full_patch shuffled_patch).
  intros key [<- | [<- | [<- | []]]]; reflexivity.
Defined.

Lemma explanation_ignores_query_witness :
  generate_explanation (VStr "Show TRUCK parcels") (VDict [("sortModel", weight_sort)])
  = generate_explanation (VInt 7) (VDict [("sortModel", weight_sort)]).
Proof.
  apply (explanation_ignores_query (VStr "Show TRUCK parcels") (VInt 7)
           [("sortModel", weight_sort)]).
  reflexivity.
Defined.

Lemma explanation_of_non_object_witness :
  generate_explanation (VStr "Show all") (VList [VStr "weight"])
  = Ok "Applied query: Show all".
Proof.
  apply (explanation_of_non_object (VStr "Show all") (VList [VStr "weight"])).
  reflexivity.
Defined.

Lemma filter_descriptor_not_mapping_witness :
  generate_explanation (VStr "q") (VDict filter_with_text_descriptor_patch)
  = Raise (AttributeError "'str' object has no attribute 'get'").
Proof.
  apply (filter_descriptor_not_mapping (VStr "q") filter_with_text_descriptor_patch
           [] [] "mode" (VStr "TRUCK"));
    reflexivity.
Defined.

Lemma sort_entry_missing_key_witness :
  generate_explanation (VStr "q") (VDict sort_without_order_patch)
  = Raise (KeyError "sort").
Proof.
  apply (sort_entry_missing_key (VStr "q") sort_without_order_patch
           [VDict [("colId", VStr "weight"); ("sort", VStr "desc")]] []
           [("colId", VStr "trip_number")]);
    reflexivity.
Defined.

Lemma group_column_not_string_witness :
  generate_explanation (VStr "q") (VDict numbered_groups_patch)
  = Raise (TypeError "sequence item 1: expected str instance, int found").
Proof.
  apply (group_column_not_string (VStr "q") numbered_groups_patch
           ["mode_of_transport"] (VInt 2) []);
    reflexivity.
Defined.

(** ** Further facts about the request handler *)

Lemma contains_lines (k : nat) (block lines : list string) :
  firstn (length block) (skipn k lines) = block ->
  contains_text (unlines block) (unlines lines).
Proof.
  intros Hblock.
  rewrite <- (firstn_skipn k lines), unlines_app.
  apply contains_text_skip.
  rewrite <- (firstn_skipn (length block) (skipn k lines)), Hblock, unlines_app.
  apply contains_text_here.
Qed.

Section HandlerCases.
Context `{Interp} `{Services}.

Lemma ai_query_not_object (v : value) :
  is_dict v = false ->
  ai_query (Ok v)
  = (except_clauses
       (AttributeError ("'" ++ type_name v ++ "' object has no attribute 'get'")),
     []).
Proof.
  intros Hv. destruct v; try discriminate; reflexivity.
Qed.

Lemma after_model_shape (user_query : value) (outcome : res string) (r : response) :
  after_model user_query outcome = Ok r -> response_shape r.
Proof.
  unfold after_model. intros Hrun.
  apply bind_ok in Hrun as (text & _ & Hrun).
  apply bind_ok in Hrun as (new_state & _ & Hrun).
  apply bind_ok in Hrun as (explanation & _ & Hrun).
  injection Hrun as <-. apply shape_success.
Qed.

Lemma except_clauses_shape (e : exn) : response_shape (except_clauses e).
Proof. destruct e; apply shape_failure. Qed.

Lemma except_clauses_interpreter (e : exn) :
  raised_by_interpreter e = true ->
  except_clauses e
  = {| status := 500;
       body := [("success", VBool false); ("error", VStr (exn_str e))] |}.
Proof. destruct e; try discriminate; reflexivity. Qed.

Lemma absent_or_empty_query (data1 data2 : dict) :
  field data1 "query" (VStr EmptyString) = field data2 "query" (VStr EmptyString) ->
  absent_or_empty "query" data1 = absent_or_empty "query" data2.
Proof.
  intros Hquery.
  rewrite <- (negb_involutive (absent_or_empty "query" data1)).
  rewrite <- (negb_involutive (absent_or_empty "query" data2)).
  now rewrite <- !truthy_query, Hquery.
Qed.

End HandlerCases.

(** ** Further properties of the request handler *)

Section HandlerExtras.
Context `{Interp} `{Services}.

(** X8.  A request makes the handler call the external model exactly when
    its body is an object whose [query] is present and not empty; it then
    sends one prompt, the one built from the request, and never a second
    one.  In every other case nothing is sent. *)
Theorem ai_query_prompts_sent (request_json : res value) :
  snd (ai_query request_json) =
  match request_json with
  | Ok (VDict data) =>
      if absent_or_empty "query" data then [] else [request_prompt data]
  | _ => []
  end.
Proof.
  destruct request_json as [v | e]; [| reflexivity].
  destruct v as [| | | | | | data]; try reflexivity.
  rewrite ai_query_object. now destruct (absent_or_empty "query" data).
Qed.

(** X9.  Every answer of the handler has one of three shapes: 200 with
    [success] true, [newState] and [explanation]; 400 with [success] false
    and the error [No query provided]; 500 with [success] false and an
    [error] text.  No exception leaves the handler and no failure carries a
    [newState]. *)
Theorem ai_query_answer_shapes (request_json : res value) :
  response_shape (fst (ai_query request_json)).
Proof.
  destruct request_json as [v | e]; [| apply except_clauses_shape].
  destruct (is_dict v) eqn:Hv.
  - destruct v as [| | | | | | data]; try discriminate.
    rewrite ai_query_object.
    destruct (absent_or_empty "query" data); [apply shape_no_query |].
    cbn [fst].
    destruct (after_model (field data "query" (VStr EmptyString))
                (generate_content (request_prompt data))) as [r | e] eqn:Hrun.
    + exact (after_model_shape _ _ _ Hrun).
    + apply except_clauses_shape.
  - rewrite (ai_query_not_object v Hv). apply except_clauses_shape.
Qed.


(** X11.  When the reply parses but the explanation generator raises, the
    answer is 500 with [success] false and the text of that exception as
    [error], without the prefix of the JSON clause and without the parsed
    reply, although the model was called. *)
Theorem ai_query_explanation_error
    (data : dict) (text : string) (new_state : value) (e : exn) :
  absent_or_empty "query" data = false ->
  generate_content (request_prompt data) = Ok text ->
  json_loads text = Ok new_state ->
  generate_explanation (field data "query" (VStr EmptyString)) new_state = Raise e ->
  ai_query (Ok (VDict data))
  = ({| status := 500;
        body := [("success", VBool false); ("error", VStr (exn_str e))] |},
     [request_prompt data]).
Proof.
  intros Hquery Hcall Hparse Hexplain.
  rewrite ai_query_object, Hquery, Hcall. cbn [after_model bind].
  rewrite Hparse. cbn [bind]. rewrite Hexplain. cbn [bind].
  apply generate_explanation_raises in Hexplain.
  now rewrite (except_clauses_interpreter e Hexplain).
Qed.

(** X12.  A request whose JSON body is not an object (null, a list, a
    string, a number) is answered 500 with the [AttributeError] of the
    missing [get], not 400, and the model is not called. *)
Theorem ai_query_body_not_object (v : value) :
  is_dict v = false ->
  ai_query (Ok v)
  = ({| status := 500;
        body := [("success", VBool false);
                 ("error",
                  VStr ("'" ++ type_name v ++ "' object has no attribute 'get'"))] |},
     []).
Proof.
  intros Hv. now rewrite (ai_query_not_object v Hv).
Qed.

(** X13.  A JSON decoding error raised by the model call itself is caught by
    the first clause as well: the answer carries the prefix
    [Invalid JSON response from AI: ] although no reply was parsed. *)
Theorem ai_query_decode_error_from_model (data : dict) (detail : string) :
  absent_or_empty "query" data = false ->
  generate_content (request_prompt data) = Raise (JSONDecodeError detail) ->
  ai_query (Ok (VDict data))
  = ({| status := 500;
        body := [("success", VBool false);
                 ("error", VStr ("Invalid JSON response from AI: " ++ detail))] |},
     [request_prompt data]).
Proof.
  intros Hquery Hcall.
  now rewrite ai_query_object, Hquery, Hcall.
Qed.

(** X14.  The answer depends on the request only through its query and the
    outcome of the model call: two requests with the same [query] whose
    prompts get the same outcome are answered alike, whatever their [tab],
    [schema] and [currentState]. *)
Theorem ai_query_answer_depends_on_query_and_reply (data1 data2 : dict) :
  field data1 "query" (VStr EmptyString) = field data2 "query" (VStr EmptyString) ->
  generate_content (request_prompt data1) = generate_content (request_prompt data2) ->
  fst (ai_query (Ok (VDict data1))) = fst (ai_query (Ok (VDict data2))).
Proof.
  intros Hquery Hcall.
  rewrite !ai_query_object, (absent_or_empty_query data1 data2 Hquery).
  destruct (absent_or_empty "query" data2); [reflexivity |].
  cbn [fst]. now rewrite Hquery, Hcall.
Qed.

(** X15.  The prompt of every request holds, each on its own lines, the
    heading [GRID SCHEMA:] followed by the serialized schema, the heading
    [CURRENT STATE:] followed by the serialized state, and [USER QUERY: ]
    followed by the query between double quotes, printed as it is. *)
Theorem prompt_embeds_request (data : dict) :
  contains_text
    (unlines ["GRID SCHEMA:"; json_dumps (field data "schema" (VDict []))])
    (request_prompt data)
  /\ contains_text
       (unlines ["CURRENT STATE:"; json_dumps (field data "currentState" (VDict []))])
       (request_prompt data)
  /\ contains_text
       (unlines ["USER QUERY: " ++ quoted (py_str (field data "query" (VStr EmptyString)))])
       (request_prompt data).
Proof.
  unfold request_prompt, system_prompt.
  split; [| split].
  - apply (contains_lines 36). reflexivity.
  - apply (contains_lines 39). reflexivity.
  - apply (contains_lines 42). reflexivity.
Qed.

(** X16.  A request without [tab] is prompted as tab [parcels]; a request
    without [schema], or without [currentState], has the empty object
    serialized in its place. *)
Theorem prompt_defaults (data : dict) :
  (lookup "tab" data = None ->
   contains_text (unlines ["CURRENT TAB: parcels"]) (request_prompt data))
  /\ (lookup "schema" data = None ->
      contains_text (unlines ["GRID SCHEMA:"; json_dumps (VDict [])])
        (request_prompt data))
  /\ (lookup "currentState" data = None ->
      contains_text (unlines ["CURRENT STATE:"; json_dumps (VDict [])])
        (request_prompt data)).
Proof.
  unfold request_prompt, system_prompt, field.
  split; [| split]; intros ->; cbn [with_default].
  - apply (contains_lines 2). reflexivity.
  - apply (contains_lines 36). reflexivity.
  - apply (contains_lines 39). reflexivity.
Qed.

End HandlerExtras.

Example health_is_healthy :
  status health = 200%Z /\ lookup "status" (body health) = Some (VStr "healthy").
Proof. now split. Qed.


Lemma ai_query_explanation_error_witness :
  @ai_query plain_interp
    (scripted_services (Ok "reply") (fun _ => Ok (VDict no_col_id_patch)))
    (Ok (VDict truck_request))
  = ({| status := 500;
        body := [("success", VBool false); ("error", VStr "'colId'")] |},
     [@request_prompt plain_interp
        (scripted_services (Ok "reply") (fun _ => Ok (VDict no_col_id_patch)))
        truck_request]).
Proof.
  apply (@ai_query_explanation_error plain_interp
           (scripted_services (Ok "reply") (fun _ => Ok (VDict no_col_id_patch)))
           truck_request "reply" (VDict no_col_id_patch) (KeyError "colId"));
    reflexivity.
Defined.

Lemma ai_query_body_not_object_witness :
  @ai_query plain_interp (canned_services (Ok "{}")) (Ok VNone)
  = ({| status := 500;
        body := [("success", VBool false);
                 ("error", VStr "'NoneType' object has no attribute 'get'")] |},
     []).
Proof.
  apply (@ai_query_body_not_object plain_interp (canned_services (Ok "{}")) VNone).
  reflexivity.
Defined.

Lemma ai_query_decode_error_from_model_witness :
  @ai_query plain_interp
    (canned_services (Raise (JSONDecodeError "Extra data: line 1 column 3 (char 2)")))
    (Ok (VDict truck_request))
  = ({| status := 500;
        body := [("success", VBool false);
                 ("error",
                  VStr ("Invalid JSON response from AI: "
                        ++ "Extra data: line 1 column 3 (char 2)"))] |},
     [@request_prompt plain_interp
        (canned_services (Raise (JSONDecodeError "Extra data: line 1 column 3 (char 2)")))
        truck_request]).
Proof.
  apply (@ai_query_decode_error_from_model plain_interp
           (canned_services (Raise (JSONDecodeError "Extra data: line 1 column 3 (char 2)")))
           truck_request "Extra data: line 1 column 3 (char 2)");
    reflexivity.
Defined.

Lemma ai_query_answer_depends_on_query_and_reply_witness :
  fst (@ai_query plain_interp (canned_services (Ok "{}")) (Ok (VDict truck_request)))
  = fst (@ai_query plain_interp (canned_services (Ok "{}"))
           (Ok (VDict truck_request_on_emails))).
Proof.
  apply (@ai_query_answer_depends_on_query_and_reply plain_interp
           (canned_services (Ok "{}")) truck_request truck_request_on_emails);
    reflexivity.
Defined.

Lemma prompt_defaults_witness :
  contains_text (unlines ["CURRENT TAB: parcels"])
    (@request_prompt plain_interp (canned_services (Ok "{}")) bare_request)
  /\ contains_text (unlines ["GRID SCHEMA:"; "{}"])
       (@request_prompt plain_interp (canned_services (Ok "{}")) bare_request)
  /\ contains_text (unlines ["CURRENT STATE:"; "{}"])
       (@request_prompt plain_interp (canned_services (Ok "{}")) bare_request).
Proof.
  destruct (@prompt_defaults plain_interp (canned_services (Ok "{}")) bare_request)
    as (Htab & Hschema & Hstate).
  split; [| split]; [apply Htab | apply Hschema | apply Hstate]; reflexivity.
Defined.

(** The grammar on the patches that the prompt shows and on replies that are
    no JSON. *)
Example valid_json_samples :
  is_valid_json "{}" = true
  /\ is_valid_json ("{" ++ quoted "sortModel" ++ ": [{" ++ quoted "colId" ++ ": "
                    ++ quoted "weight" ++ ", " ++ quoted "sort" ++ ": "
                    ++ quoted "desc" ++ "}]}") = true
  /\ is_valid_json "[1, -2.5e3, true, false, null]" = true
  /\ is_valid_json "Here is the new state" = false
  /\ is_valid_json "[1,]" = false
  /\ is_valid_json "NaN" = false.
Proof. repeat split; reflexivity. Qed.

(** C4 fails on a reply that holds the literal [NaN]: the text is not valid
    JSON, the parser reads it all the same, and the answer is 200 with the
    parsed reply as [newState]. *)
Lemma nan_reply_is_answered_200 :
  is_valid_json nan_reply = false
  /\ @ai_query plain_interp (scripted_services (Ok nan_reply) parse_nan_reply)
       (Ok (VDict truck_request))
     = ({| status := 200;
           body := [("success", VBool true); ("newState", nan_patch);
                    ("explanation", VStr "Applied query: Show me all TRUCK parcels")] |},
        [@request_prompt plain_interp (scripted_services (Ok nan_reply) parse_nan_reply)
           truck_request]).
Proof. split; reflexivity. Qed.

Section ParserErrors.
Context `{Interp} `{Services}.

(** X17.  When the parser fails on the reply with an error that is not a
    JSON decoding error, the answer is 500 with [success] false and the
    bare text of that error, without the prefix of the JSON clause and
    without [newState]. *)
Theorem ai_query_parser_other_error (data : dict) (text : string) (e : exn) :
  absent_or_empty "query" data = false ->
  generate_content (request_prompt data) = Ok text ->
  json_loads text = Raise e ->
  is_json_decode_error e = false ->
  ai_query (Ok (VDict data))
  = ({| status := 500;
        body := [("success", VBool false); ("error", VStr (exn_str e))] |},
     [request_prompt data]).
Proof.
  intros Hquery Hcall Hparse Hclass.
  rewrite ai_query_object, Hquery, Hcall. cbn [after_model bind].
  rewrite Hparse. cbn [bind].
  destruct e; try discriminate; reflexivity.
Qed.

End ParserErrors.

Lemma ai_query_parser_other_error_witness :
  @ai_query plain_interp
    (scripted_services (Ok deep_reply) (fun _ => Raise deep_reply_error))
    (Ok (VDict truck_request))
  = ({| status := 500;
        body := [("success", VBool false);
                 ("error", VStr (@exn_str plain_interp deep_reply_error))] |},
     [@request_prompt plain_interp
        (scripted_services (Ok deep_reply) (fun _ => Raise deep_reply_error))
        truck_request]).
Proof.
  apply (@ai_query_parser_other_error plain_interp
           (scripted_services (Ok deep_reply) (fun _ => Raise deep_reply_error))
           truck_request deep_reply deep_reply_error);
    reflexivity.
Defined.
